(** * serverless-rust: the build orchestration plugin (src/index.js)

    A shallow embedding of [includeInvokeHook] and of the [RustPlugin]
    class (constructor, [dockerBuildArgs], [dockerBuild], [functions],
    [build]) together with the properties of the build step.

    Conventions of the embedding.
    - A JavaScript string is a [string]; every [ascii] stands for one
      UTF-16 code unit below 256.
    - [undefined] / [null] are [None]; a value that is always a string is
      a plain [string].
    - Objects owned by the host (the service descriptor, the CLI log) and
      the record of spawned subprocesses form the [World] that a method
      reads and mutates; an exception is a [Throw] completion that keeps
      the world reached so far. *)

From Stdlib Require Import ZArith Ascii String List Bool Lia.
From stdpp Require Import base option list strings gmap pretty.

Local Open Scope string_scope.
Local Open Scope Z_scope.
Local Open Scope list_scope.

(** ** JavaScript primitives used by the module *)

Module Js.

(** Truthiness of a string: only the empty string is falsy. *)
Definition truthy (s : string) : bool :=
  match s with
  | EmptyString => false
  | String _ _ => true
  end.

(** Truthiness of a string-or-undefined value. *)
Definition truthy_opt (v : option string) : bool :=
  match v with
  | Some s => truthy s
  | None => false
  end.

(** [a || b] where [b] is a string. *)
Definition or_str (a : option string) (b : string) : string :=
  match a with
  | Some s => if truthy s then s else b
  | None => b
  end.

(** [a || b] where [b] may itself be undefined. *)
Definition or_opt (a b : option string) : option string :=
  if truthy_opt a then a else b.

(** [a == s] / [a === s] against a string constant; on a
    string-or-undefined value the loose and the strict comparison agree. *)
Definition eq_str (a : option string) (s : string) : bool :=
  match a with
  | Some x => String.eqb x s
  | None => false
  end.

(** A template-literal hole filled with a string-or-undefined value. *)
Definition to_string (v : option string) : string :=
  match v with
  | Some s => s
  | None => "undefined"
  end.

(** A template-literal hole filled with a number-or-null value. *)
Definition number_to_string (v : option Z) : string :=
  match v with
  | Some n => pretty n
  | None => "null"
  end.

(** [s.split(sep)] for a one-character separator: the pieces between
    the separators, empty pieces included; never the empty array. *)
Fixpoint split (sep : ascii) (s : string) : list string :=
  match s with
  | EmptyString => [EmptyString]
  | String c rest =>
      if Ascii.eqb c sep then EmptyString :: split sep rest
      else match split sep rest with
           | piece :: pieces => String c piece :: pieces
           | [] => [String c EmptyString]
           end
  end.

(** [StrWhiteSpaceChar] restricted to code units below 256:
    TAB, LF, VT, FF, CR, SP and NBSP. *)
Definition isWhiteSpace (c : ascii) : bool :=
  let n := nat_of_ascii c in
  ((9 <=? n)%nat && (n <=? 13)%nat) || (n =? 32)%nat || (n =? 160)%nat.

Fixpoint trimStart (s : string) : string :=
  match s with
  | EmptyString => EmptyString
  | String c rest => if isWhiteSpace c then trimStart rest else s
  end.

(** Value of a code unit read as a digit: 0-9, then a-z / A-Z as 10-35. *)
Definition digitValue (c : ascii) : option Z :=
  let n := Z.of_nat (nat_of_ascii c) in
  if (48 <=? n) && (n <=? 57) then Some (n - 48)
  else if (97 <=? n) && (n <=? 122) then Some (n - 87)
  else if (65 <=? n) && (n <=? 90) then Some (n - 55)
  else None.

(** The longest prefix of [s] made of radix-[R] digits, as digit values. *)
Fixpoint radixDigits (R : Z) (s : string) : list Z :=
  match s with
  | EmptyString => []
  | String c rest =>
      match digitValue c with
      | Some d => if d <? R then d :: radixDigits R rest else []
      | None => []
      end
  end.

Definition mathInt (R : Z) (ds : list Z) : Z :=
  fold_left (fun acc d => acc * R + d) ds 0.

(** [parseInt(s)] with no radix argument; [None] is NaN.  The result is
    the exact integer; the source only compares it with 1, 38 and 40,
    which the rounding to a double preserves. *)
Definition parseInt (s : string) : option Z :=
  let S0 := trimStart s in
  let '(sign, S1) :=
    match S0 with
    | String "-" rest => (-1, rest)
    | String "+" rest => (1, rest)
    | _ => (1, S0)
    end in
  let '(R, S2) :=
    match S1 with
    | String "0" (String "x" rest) => (16, rest)
    | String "0" (String "X" rest) => (16, rest)
    | _ => (10, S1)
    end in
  match radixDigits R S2 with
  | [] => None
  | ds => Some (sign * mathInt R ds)
  end.

(** Truthiness of an object-or-undefined value: any object is truthy. *)
Definition truthy_obj {A} (v : option A) : bool :=
  match v with Some _ => true | None => false end.

(** Comparisons of a number-or-NaN with an integer literal: NaN makes
    every one of them false. *)
Definition num_eq (x : option Z) (n : Z) : bool :=
  match x with Some v => v =? n | None => false end.
Definition num_ge (x : option Z) (n : Z) : bool :=
  match x with Some v => n <=? v | None => false end.
Definition num_lt (x : option Z) (n : Z) : bool :=
  match x with Some v => v <? n | None => false end.
(** [x > n] where [x] is a number or null: null converts to 0. *)
Definition null_gt (x : option Z) (n : Z) : bool :=
  match x with Some v => n <? v | None => n <? 0 end.

(** [hay.includes(needle)] as a proposition. *)
Definition includes (hay needle : string) : Prop :=
  exists before after, hay = before +:+ needle +:+ after.

End Js.

(** ** Module constants *)

Definition DEFAULT_DOCKER_TAG : string := "latest".
Definition DEFAULT_DOCKER_IMAGE : string := "softprops/lambda-rust".
Definition RUST_RUNTIME : string := "rust".
Definition BASE_RUNTIME : string := "provided.al2".

(** ** includeInvokeHook *)

Definition includeInvokeHook (serverlessVersion : string) : bool :=
  let parts := Js.split "." serverlessVersion in
  let major := parts !! 0%nat in
  let minor := parts !! 1%nat in
  let majorVersion := Js.parseInt (Js.to_string major) in
  let minorVersion := Js.parseInt (Js.to_string minor) in
  Js.num_eq majorVersion 1 && Js.num_ge minorVersion 38
  && Js.num_lt minorVersion 40.

(** ** Data model *)

(** [this.custom]: the plugin's defaults overridden by [custom.rust]. *)
Record Custom := {
  cargoFlags : string;
  dockerTag : string;
  dockerImage : string;
  dockerless : bool;
  dockerPath : option string;
  cargoPackage : option string;
  profile : option string;
}.

(** The [custom.rust] object of the service file: any subset of the keys. *)
Record RustOptions := {
  opt_cargoFlags : option string;
  opt_dockerTag : option string;
  opt_dockerImage : option string;
  opt_dockerless : option bool;
  opt_dockerPath : option string;
  opt_cargoPackage : option string;
  opt_profile : option string;
}.

Definition noRustOptions : RustOptions :=
  {| opt_cargoFlags := None; opt_dockerTag := None; opt_dockerImage := None;
     opt_dockerless := None; opt_dockerPath := None;
     opt_cargoPackage := None; opt_profile := None |}.

(** [func.package]: the artifact override and the properties the plugin
    never touches. *)
Record PackageObj := {
  artifact : option string;
  package_rest : list (string * string);
}.

Definition emptyPackage : PackageObj :=
  {| artifact := None; package_rest := [] |}.

(** A function object of the service. *)
Record FunctionObj := {
  func_handler : string;
  func_runtime : option string;
  func_package : option PackageObj;
}.

Record Provider := {
  provider_name : string;
  provider_runtime : option string;
}.

(** [serverless.service].  [service_functions] lists the declared functions in
    the order [Object.keys] enumerates them. *)
Record Service := {
  provider : Provider;
  service_functions : list (string * FunctionObj);
  custom_rust : option RustOptions;
  excludeDevDependencies : option bool;
}.

(** [serverless]: the fields the plugin reads besides the service. *)
Record Serverless := {
  config_servicePath : option string;
  version : string;
}.

(** The plugin's hooks are all bound to [build]. *)
Inductive Handler := BuildHandler.

(** [this]. *)
Record RustPlugin := {
  options_function : option string;
  servicePath : string;
  hooks : list (string * Handler);
  custom : Custom;
  srcPath : string;
}.

(** The result of [spawnSync]: [spawn_error] is the error object, read
    through its string rendering (the only way the module uses it);
    [spawn_status] is null when the child did not exit by itself. *)
Record SpawnResult := {
  spawn_error : option string;
  spawn_status : option Z;
}.

(** What [build] can throw. *)
Inductive Thrown :=
| Error (message : string)
| ReferenceError (identifier : string)
| ServerlessError (message : string).

Inductive Completion (A : Type) :=
| Normal (a : A)
| Throw (e : Thrown).
Arguments Normal {A} a.
Arguments Throw {A} e.

(** The state shared with the host: the service descriptor, the lines
    sent to [serverless.cli.log] and the subprocesses spawned so far
    (both oldest first). *)
Record World := {
  service : Service;
  cli_log : list string;
  spawned : list (string * list string);
}.

(** ** A state and exception monad over [World] *)

Definition M (A : Type) : Type := World -> Completion A * World.

Definition ret {A} (a : A) : M A := fun w => (Normal a, w).

Definition bind {A B} (m : M A) (k : A -> M B) : M B :=
  fun w =>
    match m w with
    | (Normal a, w') => k a w'
    | (Throw e, w') => (Throw e, w')
    end.

Definition throw {A} (e : Thrown) : M A := fun w => (Throw e, w).

Definition getService : M Service := fun w => (Normal (service w), w).

Definition setService (s : Service) : M unit :=
  fun w => (Normal tt, {| service := s; cli_log := cli_log w;
                          spawned := spawned w |}).

Definition cli_log_line (line : string) : M unit :=
  fun w => (Normal tt, {| service := service w;
                          cli_log := cli_log w ++ [line];
                          spawned := spawned w |}).

Definition recordSpawn (command : string) (args : list string) : M unit :=
  fun w => (Normal tt, {| service := service w; cli_log := cli_log w;
                          spawned := spawned w ++ [(command, args)] |}).

Notation "'let*' x := m 'in' k" := (bind m (fun x => k))
  (at level 10, x name, m at level 100, k at level 200).

(** [xs.forEach(body)] where the callback updates a captured local [acc]. *)
Fixpoint forEach {A S} (xs : list A) (body : S -> A -> M S) (acc : S) : M S :=
  match xs with
  | [] => ret acc
  | x :: rest => let* acc' := body acc x in forEach rest body acc'
  end.

(** ** Host service API *)

Fixpoint lookupFunction (fs : list (string * FunctionObj)) (name : string)
  : option FunctionObj :=
  match fs with
  | [] => None
  | (n, f) :: rest => if String.eqb n name then Some f else lookupFunction rest name
  end.

Fixpoint storeFunction (fs : list (string * FunctionObj)) (name : string)
  (f : FunctionObj) : list (string * FunctionObj) :=
  match fs with
  | [] => []
  | (n, g) :: rest =>
      if String.eqb n name then (n, f) :: rest
      else (n, g) :: storeFunction rest name f
  end.

(** [service.getAllFunctions()]. *)
Definition getAllFunctions (s : Service) : list string :=
  map fst (service_functions s).

(** The double-quote character. *)
Definition dquote : string := String (ascii_of_nat 34) EmptyString.

(** The message of the host's error for an undeclared function. *)
Definition unknownFunctionMessage (name : string) : string :=
  "Function " +:+ dquote +:+ name +:+ dquote
  +:+ " doesn't exist in this Service".

(** [service.getFunction(name)]: the function object, or the host's
    error for a name the service does not declare. *)
Definition getFunction (name : string) : M FunctionObj :=
  let* s := getService in
  match lookupFunction (service_functions s) name with
  | Some f => ret f
  | None =>
      throw (ServerlessError
               (unknownFunctionMessage name))
  end.

(** The function object behind [name] is shared with the host: writing a
    property of it updates the service in place. *)
Definition writeFunction (name : string) (f : FunctionObj) : M unit :=
  let* s := getService in
  setService {| provider := provider s;
                service_functions := storeFunction (service_functions s) name f;
                custom_rust := custom_rust s;
                excludeDevDependencies := excludeDevDependencies s |}.

Definition writeProviderRuntime (r : string) : M unit :=
  let* s := getService in
  setService {| provider := {| provider_name := provider_name (provider s);
                               provider_runtime := Some r |};
                service_functions := service_functions s;
                custom_rust := custom_rust s;
                excludeDevDependencies := excludeDevDependencies s |}.

Definition writeExcludeDevDependencies (b : bool) : M unit :=
  let* s := getService in
  setService {| provider := provider s;
                service_functions := service_functions s;
                custom_rust := custom_rust s;
                excludeDevDependencies := Some b |}.

(** ** The plugin *)

(** [Object.assign(defaults, custom.rust || {})]. *)
Definition assignCustom (o : RustOptions) : Custom :=
  {| cargoFlags := default "" (opt_cargoFlags o);
     dockerTag := default DEFAULT_DOCKER_TAG (opt_dockerTag o);
     dockerImage := default DEFAULT_DOCKER_IMAGE (opt_dockerImage o);
     dockerless := default false (opt_dockerless o);
     dockerPath := opt_dockerPath o;
     cargoPackage := opt_cargoPackage o;
     profile := opt_profile o |}.

Definition INVOKE_LOCAL_HOOK : string := "before:invoke:local:invoke".

(** Lines 86-97 of [dockerBuildArgs]: the value of the local [cargoFlags]
    once the package selection has been added. *)
Definition assembleCargoFlags (flags : string) (package : option string)
  : string :=
  match package with
  | Some p =>
      if Js.truthy flags then flags +:+ " -p " +:+ p
      else " -p " +:+ p
  | None => flags
  end.

(** Lines 98-101: what the flags add to [customArgs]. *)
Definition cargoFlagsArgs (flags : string) : list string :=
  if Js.truthy flags then ["-e"; "CARGO_FLAGS=" +:+ flags] else [].

(** Lines 87-90: what the profile adds to [customArgs]. *)
Definition profileArgs (profile : option string) : list string :=
  if Js.truthy_opt profile then ["-e"; "PROFILE=" +:+ Js.to_string profile]
  else [].

Definition dockerBuildArgs (this : RustPlugin) (cargoPackage : option string)
  (profile : option string) (srcPath cargoRegistry cargoDownloads : string)
  (env : gmap string string) : list string :=
  let defaultArgs :=
    ["run"; "--rm"; "-t"; "-e";
     "-v"; srcPath +:+ ":/code";
     "-v"; cargoRegistry +:+ ":/cargo/registry";
     "-v"; cargoDownloads +:+ ":/cargo/git"] in
  let customArgs := Js.split " " (Js.or_str (env !! "SLS_DOCKER_ARGS") "") in
  let cargoFlags0 := cargoFlags (custom this) in
  let customArgs := customArgs ++ profileArgs profile in
  let cargoFlags1 := assembleCargoFlags cargoFlags0 cargoPackage in
  let customArgs := customArgs ++ cargoFlagsArgs cargoFlags1 in
  List.filter Js.truthy
    (defaultArgs ++ customArgs
       ++ [dockerTag (custom this) +:+ ":" +:+ dockerImage (custom this)]).

Section Node.

(** What the module takes from Node.js: [path], [os.homedir()],
    [process.env], [child_process.spawnSync] (as the outcome it reports
    for a command line) and the string-valued bindings of the global
    object, where an identifier that no enclosing scope declares is
    looked up. *)
Variable path_resolve : string -> string.
Variable path_join : list string -> string.
Variable homedir : string.
Variable process_env : gmap string string.
Variable spawnSync : string -> list string -> SpawnResult.
Variable globalThis : gmap string string.

Definition constructor (serverless : Serverless) (options : option string)
  : M RustPlugin :=
  let servicePath := Js.or_str (config_servicePath serverless) "" in
  let hooks0 :=
    [("before:package:createDeploymentArtifacts", BuildHandler);
     ("before:deploy:function:packageFunction", BuildHandler);
     ("before:offline:start", BuildHandler);
     ("before:offline:start:init", BuildHandler)] in
  let hooks :=
    if includeInvokeHook (version serverless)
    then hooks0 ++ [(INVOKE_LOCAL_HOOK, BuildHandler)]
    else hooks0 in
  let* s := getService in
  let custom := assignCustom (default noRustOptions (custom_rust s)) in
  let srcPath := path_resolve (Js.or_str (dockerPath custom) servicePath) in
  let* _ := writeExcludeDevDependencies false in
  ret {| options_function := options;
         servicePath := servicePath;
         hooks := hooks;
         custom := custom;
         srcPath := srcPath |}.

(** The command line [dockerBuild] runs. *)
Definition dockerCommand (this : RustPlugin) (cargoPackage : option string)
  (profile : option string) : string * list string :=
  let cargoHome :=
    Js.or_str (process_env !! "CARGO_HOME") (path_join [homedir; ".cargo"]) in
  let cargoRegistry := path_join [cargoHome; "registry"] in
  let cargoDownloads := path_join [cargoHome; "git"] in
  let dockerCLI := Js.or_str (process_env !! "SLS_DOCKER_CLI") "docker" in
  let args :=
    dockerBuildArgs this cargoPackage profile (srcPath this)
      cargoRegistry cargoDownloads process_env in
  (dockerCLI, args).

Definition dockerBuild (this : RustPlugin) (cargoPackage : option string)
  (profile : option string) : M SpawnResult :=
  let '(dockerCLI, args) := dockerCommand this cargoPackage profile in
  let* _ := cli_log_line "Running containerized build" in
  let* _ := recordSpawn dockerCLI args in
  ret (spawnSync dockerCLI args).

Definition functions (this : RustPlugin) : M (list string) :=
  if Js.truthy_opt (options_function this)
  then ret [Js.to_string (options_function this)]
  else let* s := getService in ret (getAllFunctions s).

(** Evaluation of an identifier that the module does not declare. *)
Definition resolveIdentifier (name : string) : M string :=
  match globalThis !! name with
  | Some v => ret v
  | None => throw (ReferenceError name)
  end.

(** The callback of the first [forEach] of [build] (lines 145-153);
    the accumulator is the captured [rustFunctionsFound]. *)
Definition selectRust (rustFunctionsFound : bool) (funcName : string)
  : M bool :=
  let* func := getFunction funcName in
  let* s := getService in
  let runtime :=
    Js.or_opt (func_runtime func) (provider_runtime (provider s)) in
  if negb (Js.eq_str runtime RUST_RUNTIME) then ret rustFunctionsFound
  else ret true.

Definition artifactDir (profile : string) : string :=
  "target/lambda/" +:+ (if String.eqb "dev" profile then "debug" else "release").

(** The callback of the second [forEach] (lines 170-193).  [profile] and
    [binary] are not declared by [build], by the class or by the module. *)
Definition rewriteFunction (this : RustPlugin) (_ : unit) (funcName : string)
  : M unit :=
  let* func := getFunction funcName in
  let* profile := resolveIdentifier "profile" in
  let* binary := resolveIdentifier "binary" in
  let artifactPath :=
    path_join [srcPath this; artifactDir profile; binary +:+ ".zip"] in
  let package := default emptyPackage (func_package func) in
  let package := {| artifact := Some artifactPath;
                    package_rest := package_rest package |} in
  let func := {| func_handler := func_handler func;
                 func_runtime := func_runtime func;
                 func_package := Some package |} in
  let* _ := writeFunction funcName func in
  if Js.eq_str (func_runtime func) RUST_RUNTIME
  then writeFunction funcName
         {| func_handler := func_handler func;
            func_runtime := Some BASE_RUNTIME;
            func_package := func_package func |}
  else ret tt.

Definition noRustFunctionsMessage : string :=
  "Error: no Rust functions found. " +:+
  "Use 'runtime: " +:+ RUST_RUNTIME +:+ "' in global or " +:+
  "function configuration to use this plugin.".

Definition buildFailed (res : SpawnResult) : bool :=
  Js.truthy_obj (spawn_error res) || Js.null_gt (spawn_status res) 0.

Definition buildFailedLine (res : SpawnResult) : string :=
  "Rust build encountered an error: " +:+ Js.to_string (spawn_error res)
  +:+ " " +:+ Js.number_to_string (spawn_status res) +:+ ".".

(** [new Error(res.error)]: the message is the rendering of the
    argument, and empty when the argument is undefined. *)
Definition newError (message : option string) : Thrown :=
  Error (default "" message).

(** The entry point for building functions. *)
Definition build (this : RustPlugin) : M unit :=
  let* s := getService in
  if negb (String.eqb (provider_name (provider s)) "aws") then ret tt
  else
    let* names := functions this in
    let* rustFunctionsFound := forEach names selectRust false in
    if negb rustFunctionsFound then throw (Error noRustFunctionsMessage)
    else
      let* res := dockerBuild this (cargoPackage (custom this))
                    (profile (custom this)) in
      if buildFailed res then
        let* _ := cli_log_line (buildFailedLine res) in
        throw (newError (spawn_error res))
      else
        let* names := functions this in
        let* _ := forEach names (rewriteFunction this) tt in
        let* s := getService in
        if Js.eq_str (provider_runtime (provider s)) RUST_RUNTIME
        then writeProviderRuntime BASE_RUNTIME
        else ret tt.

End Node.

(** ** Sample host and inputs used by the closed examples *)

Module Sample.

(** [path.join] and [path.resolve] on segments that are already
    normalised and absolute where needed: the segments with a slash
    between them, and the path itself. *)
Definition join (segments : list string) : string := String.concat "/" segments.
Definition resolve (p : string) : string := p.

Definition home : string := "/home/dev".

Definition exits (status : Z) : string -> list string -> SpawnResult :=
  fun _ _ => {| spawn_error := None; spawn_status := Some status |}.

Definition hello : FunctionObj :=
  {| func_handler := "hello"; func_runtime := Some "rust";
     func_package := None |}.

Definition web : FunctionObj :=
  {| func_handler := "web.handler"; func_runtime := Some "nodejs18.x";
     func_package := None |}.

Definition serviceOf (providerName : string) (providerRuntime : option string)
  (fs : list (string * FunctionObj)) : Service :=
  {| provider := {| provider_name := providerName;
                    provider_runtime := providerRuntime |};
     service_functions := fs;
     custom_rust := None;
     excludeDevDependencies := Some false |}.

Definition worldOf (s : Service) : World :=
  {| service := s; cli_log := []; spawned := [] |}.

Definition pluginOf (only : option string) (c : Custom) : RustPlugin :=
  {| options_function := only; servicePath := "/srv/app"; hooks := [];
     custom := c; srcPath := "/srv/app" |}.

Definition defaults : Custom := assignCustom noRustOptions.

Definition devProfile : Custom :=
  assignCustom {| opt_cargoFlags := None; opt_dockerTag := None;
                  opt_dockerImage := None; opt_dockerless := None;
                  opt_dockerPath := None; opt_cargoPackage := None;
                  opt_profile := Some "dev" |}.

Definition run (spawn : string -> list string -> SpawnResult)
  (globals : gmap string string) (this : RustPlugin) (w : World)
  : Completion unit * World :=
  build join home ∅ spawn globals this w.

End Sample.

(** Whether the code unit [c] occurs in [s]. *)
Fixpoint occurs (c : ascii) (s : string) : bool :=
  match s with
  | EmptyString => false
  | String d rest => Ascii.eqb d c || occurs c rest
  end.

(** The pure content of [functions()]: the names in scope. *)
Definition scope (this : RustPlugin) (s : Service) : list string :=
  if Js.truthy_opt (options_function this)
  then [Js.to_string (options_function this)]
  else getAllFunctions s.

(** The effective runtime the selection loop compares. *)
Definition effectiveRuntime (s : Service) (f : FunctionObj) : option string :=
  Js.or_opt (func_runtime f) (provider_runtime (provider s)).

(** The outcome the subprocess of [dockerBuild] reports. *)
Definition dockerOutcome (path_join : list string -> string) (homedir : string)
  (process_env : gmap string string)
  (spawnSync : string -> list string -> SpawnResult) (this : RustPlugin)
  : SpawnResult :=
  let '(dockerCLI, args) :=
    dockerCommand path_join homedir process_env this
      (cargoPackage (custom this)) (profile (custom this)) in
  spawnSync dockerCLI args.

(** The world once [dockerBuild] has returned. *)
Definition afterDockerBuild (path_join : list string -> string)
  (homedir : string) (process_env : gmap string string) (this : RustPlugin)
  (w : World) : World :=
  {| service := service w;
     cli_log := cli_log w ++ ["Running containerized build"];
     spawned := spawned w ++
       [dockerCommand path_join homedir process_env this
          (cargoPackage (custom this)) (profile (custom this))] |}.

(** The subprocess reported a spawn error or an exit status above zero. *)
Definition reportsFailure (res : SpawnResult) : Prop :=
  spawn_error res <> None \/
  exists status, spawn_status res = Some status /\ 0 < status.

(** The fixed leading arguments of [dockerBuildArgs] (lines 73-84). *)
Definition defaultDockerArgs (srcPath cargoRegistry cargoDownloads : string)
  : list string :=
  ["run"; "--rm"; "-t"; "-e";
   "-v"; srcPath +:+ ":/code";
   "-v"; cargoRegistry +:+ ":/cargo/registry";
   "-v"; cargoDownloads +:+ ":/cargo/git"].

(** What [SLS_DOCKER_ARGS] contributes once the final filter has run. *)
Definition extraDockerArgs (env : gmap string string) : list string :=
  List.filter Js.truthy (Js.split " " (Js.or_str (env !! "SLS_DOCKER_ARGS") "")).

(** A function object after one iteration of the rewriting loop that read
    [p] for [profile] and [b] for [binary]. *)
Definition rewrittenFunction (path_join : list string -> string)
  (this : RustPlugin) (p b : string) (f : FunctionObj) : FunctionObj :=
  {| func_handler := func_handler f;
     func_runtime :=
       if Js.eq_str (func_runtime f) RUST_RUNTIME
       then Some BASE_RUNTIME else func_runtime f;
     func_package :=
       Some {| artifact :=
                 Some (path_join [srcPath this; artifactDir p; b +:+ ".zip"]);
               package_rest :=
                 package_rest (default emptyPackage (func_package f)) |} |}.

(** The world with the service's functions replaced. *)
Definition withFunctions (w : World) (fs : list (string * FunctionObj))
  : World :=
  {| service :=
       {| provider := provider (service w);
          service_functions := fs;
          custom_rust := custom_rust (service w);
          excludeDevDependencies := excludeDevDependencies (service w) |};
     cli_log := cli_log w;
     spawned := spawned w |}.

(** The functions of the service after the rewriting loop ran over
    [names], all of them declared. *)
Fixpoint rewriteNames (path_join : list string -> string) (this : RustPlugin)
  (p b : string) (names : list string) (fs : list (string * FunctionObj))
  : list (string * FunctionObj) :=
  match names with
  | [] => fs
  | n :: rest =>
      match lookupFunction fs n with
      | Some f =>
          rewriteNames path_join this p b rest
            (storeFunction fs n (rewrittenFunction path_join this p b f))
      | None => fs
      end
  end.

(** What [build] never changes: the provider's name, the [custom.rust]
    object, [excludeDevDependencies], and the names and handlers of the
    declared functions. *)
Definition sameDeclarations (w w' : World) : Prop :=
  provider_name (provider (service w')) = provider_name (provider (service w)) /\
  custom_rust (service w') = custom_rust (service w) /\
  excludeDevDependencies (service w') = excludeDevDependencies (service w) /\
  map (fun entry => (fst entry, func_handler (snd entry)))
    (service_functions (service w'))
  = map (fun entry => (fst entry, func_handler (snd entry)))
      (service_functions (service w)).

(** The subprocess reported no spawn error and an exit status that is
    null or not above zero. *)
Definition reportsSuccess (res : SpawnResult) : Prop :=
  spawn_error res = None /\
  (spawn_status res = None \/
   exists status, spawn_status res = Some status /\ status <= 0).

(** Further sample inputs. *)
Module Fixture.

(** A subprocess ended by a signal: no error object, null status. *)
Definition signalled : string -> list string -> SpawnResult :=
  fun _ _ => {| spawn_error := None; spawn_status := None |}.

(** A global object on which [profile] and [binary] are defined. *)
Definition boundGlobals : gmap string string :=
  <["profile" := "dev"]> (<["binary" := "hello"]> ∅).

(** A global object on which only [profile] is defined. *)
Definition profileOnly : gmap string string := <["profile" := "dev"]> ∅.

(** A service with a ['rust'] function and a Node.js function. *)
Definition mixed : World :=
  Sample.worldOf
    (Sample.serviceOf "aws" (Some "rust")
       [("hello", Sample.hello); ("web", Sample.web)]).

Definition all : RustPlugin := Sample.pluginOf None Sample.defaults.
Definition only (name : string) : RustPlugin :=
  Sample.pluginOf (Some name) Sample.defaults.

End Fixture.

(** * Properties *)

(** ** Splitting and the version gate *)

Lemma append_cons (c : ascii) (s t : string) :
  String c s +:+ t = String c (s +:+ t).
Proof. reflexivity. Qed.

Lemma append_nil (t : string) : "" +:+ t = t.
Proof. reflexivity. Qed.

Lemma split_no_separator sep s :
  occurs sep s = false -> Js.split sep s = [s].
Proof.
  induction s as [|c s IH]; simpl; [reflexivity|].
  intros H. apply orb_false_iff in H as [Hc Hs].
  rewrite Hc, (IH Hs). reflexivity.
Qed.

Lemma split_at_separator sep a b :
  occurs sep a = false ->
  Js.split sep (a +:+ String sep b) = a :: Js.split sep b.
Proof.
  induction a as [|c a IH].
  - intros _. rewrite append_nil. simpl. rewrite Ascii.eqb_refl. reflexivity.
  - intros H. simpl in H. apply orb_false_iff in H as [Hc Ha].
    rewrite append_cons. simpl. rewrite Hc, (IH Ha). reflexivity.
Qed.

Lemma append_empty_r (s : string) : s +:+ "" = s.
Proof.
  induction s as [|c s IH]; [reflexivity|].
  rewrite append_cons, IH. reflexivity.
Qed.

Lemma append_assoc (s t u : string) : (s +:+ t) +:+ u = s +:+ t +:+ u.
Proof.
  induction s as [|c s IH]; [reflexivity|].
  rewrite !append_cons, IH. reflexivity.
Qed.

Lemma split_version major minor rest :
  occurs "." major = false -> occurs "." minor = false ->
  rest = "" \/ (exists r, rest = String "." r) ->
  exists more, Js.split "." (major +:+ "." +:+ minor +:+ rest)
               = major :: minor :: more.
Proof.
  intros Hmaj Hmin Hrest.
  change ("." +:+ minor +:+ rest) with (String "." (minor +:+ rest)).
  rewrite (split_at_separator _ _ _ Hmaj).
  destruct Hrest as [-> | [r ->]].
  - exists []. f_equal.
    rewrite append_empty_r.
    apply split_no_separator, Hmin.
  - exists (Js.split "." r). f_equal. apply split_at_separator, Hmin.
Qed.

Lemma includeInvokeHook_spec major minor rest :
  occurs "." major = false -> occurs "." minor = false ->
  rest = "" \/ (exists r, rest = String "." r) ->
  includeInvokeHook (major +:+ "." +:+ minor +:+ rest) = true <->
  Js.parseInt major = Some 1 /\
  exists m, Js.parseInt minor = Some m /\ 38 <= m < 40.
Proof.
  intros Hmaj Hmin Hrest.
  destruct (split_version major minor rest Hmaj Hmin Hrest) as [more Hs].
  unfold includeInvokeHook. rewrite Hs. simpl.
  destruct (Js.parseInt major) as [a|], (Js.parseInt minor) as [b|]; simpl.
  - rewrite !andb_true_iff, Z.eqb_eq, Z.leb_le, Z.ltb_lt. split.
    + intros [[-> ?] ?]. split; [reflexivity|]. exists b. split; [reflexivity|lia].
    + intros [Ha [m [Hm ?]]]. injection Ha as ->. injection Hm as ->. lia.
  - rewrite andb_false_r. split; [discriminate|].
    intros [_ [m [Hm _]]]. discriminate.
  - split; [discriminate|]. intros [Ha _]. discriminate.
  - split; [discriminate|]. intros [Ha _]. discriminate.
Qed.

(** C9. For a host version ["<major>.<minor>..."] (the two leading
    dot-free components, followed by nothing or by further components),
    the constructor registers the pre-local-invoke build hook if and only
    if [parseInt] reads 1 from the major component and an integer of the
    interval [38, 40) from the minor one. *)
Theorem invoke_hook_registered_iff_version_gate
  (path_resolve : string -> string) (serverless : Serverless)
  (options : option string) (w : World) (major minor rest : string) :
  occurs "." major = false ->
  occurs "." minor = false ->
  rest = "" \/ (exists r, rest = String "." r) ->
  version serverless = major +:+ "." +:+ minor +:+ rest ->
  exists this w',
    constructor path_resolve serverless options w = (Normal this, w') /\
    (In INVOKE_LOCAL_HOOK (map fst (hooks this)) <->
     Js.parseInt major = Some 1 /\
     exists m, Js.parseInt minor = Some m /\ 38 <= m < 40).
Proof.
  intros Hmaj Hmin Hrest Hv.
  pose proof (includeInvokeHook_spec major minor rest Hmaj Hmin Hrest) as Hgate.
  rewrite <- Hv in Hgate.
  unfold constructor, bind, getService, writeExcludeDevDependencies,
    setService, ret. simpl.
  eexists _, _. split; [reflexivity|]. simpl.
  rewrite <- Hgate.
  destruct (includeInvokeHook (version serverless)); simpl.
  - split; [reflexivity|]. intros _. do 4 right. left. reflexivity.
  - split; [|discriminate].
    intros H. repeat (destruct H as [H|H]; [discriminate H|]). destruct H.
Qed.

Lemma invoke_hook_registered_witness :
  exists this w',
    constructor Sample.resolve
      {| config_servicePath := Some "/srv/app"; version := "1.38.0" |}
      None (Sample.worldOf (Sample.serviceOf "aws" None [])) = (Normal this, w') /\
    (In INVOKE_LOCAL_HOOK (map fst (hooks this)) <->
     Js.parseInt "1" = Some 1 /\
     exists m, Js.parseInt "38" = Some m /\ 38 <= m < 40).
Proof.
  apply (invoke_hook_registered_iff_version_gate Sample.resolve
           {| config_servicePath := Some "/srv/app"; version := "1.38.0" |}
           None _ "1" "38" ".0").
  - reflexivity.
  - reflexivity.
  - right. exists "0". reflexivity.
  - reflexivity.
Defined.

(** ** The argument assembler *)

Lemma image_reference_truthy (tag image : string) :
  Js.truthy (tag +:+ ":" +:+ image) = true.
Proof. destruct tag; reflexivity. Qed.

Lemma truthy_true_iff (s : string) : Js.truthy s = true <-> s <> "".
Proof. destruct s; simpl; split; congruence. Qed.

Lemma cargoFlagsArgs_truthy (flags : string) :
  List.filter Js.truthy (cargoFlagsArgs flags) = cargoFlagsArgs flags.
Proof. unfold cargoFlagsArgs. destruct (Js.truthy flags); reflexivity. Qed.

(** The arguments that do not depend on the cargo flags. *)
Lemma dockerBuildArgs_shape this pkg profile srcPath reg dl env :
  dockerBuildArgs this pkg profile srcPath reg dl env =
  List.filter Js.truthy
    (["run"; "--rm"; "-t"; "-e"; "-v"; srcPath +:+ ":/code";
      "-v"; reg +:+ ":/cargo/registry"; "-v"; dl +:+ ":/cargo/git"]
     ++ Js.split " " (Js.or_str (env !! "SLS_DOCKER_ARGS") "")
     ++ profileArgs profile)
  ++ cargoFlagsArgs (assembleCargoFlags (cargoFlags (custom this)) pkg)
  ++ [dockerTag (custom this) +:+ ":" +:+ dockerImage (custom this)].
Proof.
  unfold dockerBuildArgs.
  rewrite !app_assoc, !List.filter_app, cargoFlagsArgs_truthy.
  f_equal. cbn [List.filter]. rewrite image_reference_truthy. reflexivity.
Qed.

(** C4. The flags string is [" -p <package>"] when a package is set and
    the configured flags are empty, ["<cargoFlags> -p <package>"] when
    they are not; and the arguments end with the pair
    ["-e"], ["CARGO_FLAGS=<flags>"] before the image exactly when that
    string is non-empty, after a prefix that the flags do not influence. *)
Theorem cargo_flags_assembled_and_passed
  (profile : option string) (srcPath reg dl : string)
  (env : gmap string string) :
  exists prefix : list string,
  forall (this : RustPlugin) (pkg : option string),
    let configured := cargoFlags (custom this) in
    let flags := assembleCargoFlags configured pkg in
    let image := dockerTag (custom this) +:+ ":" +:+ dockerImage (custom this) in
    (forall p, pkg = Some p -> configured = "" -> flags = " -p " +:+ p) /\
    (forall p, pkg = Some p -> configured <> "" ->
               flags = configured +:+ " -p " +:+ p) /\
    (flags <> "" ->
     dockerBuildArgs this pkg profile srcPath reg dl env
     = prefix ++ ["-e"; "CARGO_FLAGS=" +:+ flags] ++ [image]) /\
    (flags = "" ->
     dockerBuildArgs this pkg profile srcPath reg dl env = prefix ++ [image]).
Proof.
  eexists. intros this pkg configured flags image.
  repeat split.
  - intros p -> Hc. subst flags. rewrite Hc. reflexivity.
  - intros p -> Hc. subst flags. unfold assembleCargoFlags.
    apply truthy_true_iff in Hc. rewrite Hc. reflexivity.
  - intros Hf. rewrite dockerBuildArgs_shape. f_equal.
    fold configured. fold flags. unfold cargoFlagsArgs.
    apply truthy_true_iff in Hf. rewrite Hf. reflexivity.
  - intros Hf. rewrite dockerBuildArgs_shape. f_equal.
    fold configured. fold flags. rewrite Hf. reflexivity.
Qed.

(** C8. The image reference ["<dockerTag>:<dockerImage>"] is the last
    argument, and no argument is the empty string. *)
Theorem image_reference_last_and_no_empty_argument
  (this : RustPlugin) (pkg profile : option string)
  (srcPath reg dl : string) (env : gmap string string) :
  last (dockerBuildArgs this pkg profile srcPath reg dl env)
  = Some (dockerTag (custom this) +:+ ":" +:+ dockerImage (custom this))
  /\ Forall (fun a => Js.truthy a = true /\ a <> "")
       (dockerBuildArgs this pkg profile srcPath reg dl env).
Proof.
  split.
  - rewrite dockerBuildArgs_shape, !app_assoc. apply last_snoc.
  - unfold dockerBuildArgs. apply List.Forall_forall. intros a Ha.
    apply List.filter_In in Ha as [_ Ha]. split; [exact Ha|].
    apply truthy_true_iff, Ha.
Qed.

(** ** The build entry point *)

Lemma eq_str_false_iff (a : option string) (s : string) :
  Js.eq_str a s = false <-> a <> Some s.
Proof.
  destruct a as [x|]; simpl; [|split; [discriminate|reflexivity]].
  rewrite String.eqb_neq. split; congruence.
Qed.

Lemma functions_scope this w :
  functions this w = (Normal (scope this (service w)), w).
Proof. unfold functions, scope. destruct (Js.truthy_opt _); reflexivity. Qed.

Lemma getFunction_inspect name w :
  getFunction name w =
  match lookupFunction (service_functions (service w)) name with
  | Some f => (Normal f, w)
  | None =>
      (Throw (ServerlessError
                (unknownFunctionMessage name)),
       w)
  end.
Proof.
  unfold getFunction, bind, getService.
  destruct (lookupFunction _ _); reflexivity.
Qed.

Lemma selectRust_inspect found name w :
  selectRust found name w =
  match getFunction name w with
  | (Normal f, _) =>
      (Normal (if Js.eq_str (effectiveRuntime (service w) f) RUST_RUNTIME
               then true else found), w)
  | (Throw e, _) => (Throw e, w)
  end.
Proof.
  unfold selectRust, bind. rewrite getFunction_inspect.
  destruct (lookupFunction _ _) as [f|]; [|reflexivity].
  unfold getService, effectiveRuntime.
  destruct (Js.eq_str _ _); reflexivity.
Qed.

(** The selection loop only reads. *)
Lemma selection_reads_only names found w :
  snd (forEach names selectRust found w) = w.
Proof.
  revert found. induction names as [|n names IH]; intros found; [reflexivity|].
  simpl. unfold bind. rewrite selectRust_inspect, getFunction_inspect.
  destruct (lookupFunction _ _); [apply IH|reflexivity].
Qed.

Lemma selection_finds_nothing names w :
  Forall (fun n => exists f,
            lookupFunction (service_functions (service w)) n = Some f /\
            effectiveRuntime (service w) f <> Some RUST_RUNTIME) names ->
  forEach names selectRust false w = (Normal false, w).
Proof.
  induction 1 as [|n names [f [Hf Hr]] _ IH]; [reflexivity|].
  simpl. unfold bind. rewrite selectRust_inspect, getFunction_inspect, Hf.
  apply eq_str_false_iff in Hr. rewrite Hr. exact IH.
Qed.

(** A selection that found something looked its first name up. *)
Lemma selection_found_first names w w' :
  forEach names selectRust false w = (Normal true, w') ->
  exists n rest f,
    names = n :: rest /\
    lookupFunction (service_functions (service w)) n = Some f.
Proof.
  destruct names as [|n rest]; [discriminate|].
  simpl. unfold bind. rewrite selectRust_inspect, getFunction_inspect.
  destruct (lookupFunction _ _) as [f|] eqn:Hf; [|discriminate].
  intros _. exists n, rest, f. split; [reflexivity|exact Hf].
Qed.

(** Every name [getAllFunctions] returns is one [getFunction] resolves. *)
Lemma declared_name_resolves (s : Service) (n : string) :
  In n (getAllFunctions s) ->
  exists f, lookupFunction (service_functions s) n = Some f.
Proof.
  unfold getAllFunctions.
  induction (service_functions s) as [|[m g] fs IH]; simpl; [intros []|].
  destruct (String.eqb m n) eqn:Hm; [intros _; exists g; reflexivity|].
  intros [Heq|Hin]; [|exact (IH Hin)].
  apply String.eqb_neq in Hm. congruence.
Qed.

Lemma noRustFunctionsMessage_names_runtime :
  Js.includes noRustFunctionsMessage RUST_RUNTIME.
Proof.
  exists "Error: no Rust functions found. Use 'runtime: ",
         "' in global or function configuration to use this plugin.".
  reflexivity.
Qed.

Section BuildProperties.

Variable path_join : list string -> string.
Variable homedir : string.
Variable process_env : gmap string string.
Variable spawnSync : string -> list string -> SpawnResult.
Variable globalThis : gmap string string.

Local Abbreviation run := (build path_join homedir process_env spawnSync globalThis).
Local Abbreviation outcome := (dockerOutcome path_join homedir process_env spawnSync).
Local Abbreviation built := (afterDockerBuild path_join homedir process_env).

(** What [build] does, by the outcome of each of its steps. *)
Lemma build_cases this w :
  run this w =
  if negb (String.eqb (provider_name (provider (service w))) "aws")
  then (Normal tt, w)
  else
    match forEach (scope this (service w)) selectRust false w with
    | (Throw e, _) => (Throw e, w)
    | (Normal false, _) => (Throw (Error noRustFunctionsMessage), w)
    | (Normal true, _) =>
        if buildFailed (outcome this) then
          (Throw (newError (spawn_error (outcome this))),
           {| service := service w;
              cli_log := cli_log (built this w) ++ [buildFailedLine (outcome this)];
              spawned := spawned (built this w) |})
        else
          match forEach (scope this (service w))
                  (rewriteFunction path_join globalThis this) tt
                  (built this w) with
          | (Throw e, w') => (Throw e, w')
          | (Normal _, w') =>
              if Js.eq_str (provider_runtime (provider (service w'))) RUST_RUNTIME
              then writeProviderRuntime BASE_RUNTIME w'
              else (Normal tt, w')
          end
    end.
Proof.
  unfold build, bind at 1, getService at 1.
  destruct (negb _); [reflexivity|].
  unfold bind at 1. rewrite functions_scope. unfold bind at 1.
  pose proof (selection_reads_only (scope this (service w)) false w) as Hw.
  destruct (forEach _ selectRust false w) as [[[|]|e] w0]; simpl in Hw; subst w0;
    simpl negb; cbv iota; try reflexivity.
  unfold bind at 1, dockerBuild, dockerOutcome, afterDockerBuild.
  destruct (dockerCommand _ _ _ _ _ _) as [cli args].
  unfold bind, cli_log_line, recordSpawn, ret, throw. simpl.
  destruct (buildFailed _); [reflexivity|].
  rewrite functions_scope. simpl.
  destruct (forEach _ _ tt _) as [[[]|e] w']; [|reflexivity].
  unfold getService. destruct (Js.eq_str _ _); reflexivity.
Qed.

Lemma buildFailed_iff (res : SpawnResult) :
  buildFailed res = true <-> reportsFailure res.
Proof.
  unfold buildFailed, reportsFailure.
  destruct res as [[e|] [n|]]; simpl; rewrite ?Z.ltb_lt; split;
    try (intros _; left; discriminate); try reflexivity.
  - intros H. right. exists n. split; [reflexivity|exact H].
  - intros [H|[m [Hm H]]]; [congruence|]. injection Hm as ->. exact H.
  - discriminate.
  - intros [H|[m [Hm _]]]; [congruence|discriminate].
Qed.

(** C7. With a provider other than ['aws'] the step returns at once:
    it completes normally and leaves the world (service, log,
    subprocesses spawned) as it found it. *)
Theorem build_skips_other_provider this w :
  provider_name (provider (service w)) <> "aws" ->
  run this w = (Normal tt, w).
Proof.
  intros H. rewrite build_cases.
  apply String.eqb_neq in H. rewrite H. reflexivity.
Qed.

(** C3. With provider ['aws'], when no function in scope (the
    caller-specified one, which the service declares, or else all the
    declared ones) has effective runtime ['rust'], the step throws an
    error whose message names ['rust'], having spawned no subprocess
    (and changed nothing else). *)
Theorem build_throws_when_no_rust_function this w :
  provider_name (provider (service w)) = "aws" ->
  (Js.truthy_opt (options_function this) = true ->
   lookupFunction (service_functions (service w))
     (Js.to_string (options_function this)) <> None) ->
  (forall n f,
     In n (scope this (service w)) ->
     lookupFunction (service_functions (service w)) n = Some f ->
     effectiveRuntime (service w) f <> Some RUST_RUNTIME) ->
  exists message w',
    run this w = (Throw (Error message), w') /\
    Js.includes message RUST_RUNTIME /\
    spawned w' = spawned w /\ w' = w.
Proof.
  intros Haws Hdeclared Hnone. exists noRustFunctionsMessage, w.
  rewrite build_cases, Haws, selection_finds_nothing.
  - repeat split. apply noRustFunctionsMessage_names_runtime.
  - apply List.Forall_forall. intros n Hn.
    assert (exists f, lookupFunction (service_functions (service w)) n = Some f)
      as [f Hf].
    { unfold scope in Hn.
      destruct (Js.truthy_opt (options_function this)).
      - destruct Hn as [<-|[]]. specialize (Hdeclared eq_refl).
        destruct (lookupFunction _ _) as [f|]; [exists f; reflexivity|congruence].
      - apply declared_name_resolves, Hn. }
    exists f. split; [exact Hf|]. apply (Hnone n f Hn Hf).
Qed.

(** A step that spawned a subprocess went through the provider check
    and the selection. *)
Lemma spawned_then_built this w :
  spawned (snd (run this w)) <> spawned w ->
  provider_name (provider (service w)) = "aws" /\
  exists w0, forEach (scope this (service w)) selectRust false w
             = (Normal true, w0).
Proof.
  rewrite build_cases.
  destruct (String.eqb _ "aws") eqn:Haws; simpl; [|congruence].
  apply String.eqb_eq in Haws.
  destruct (forEach _ selectRust false w) as [[[|]|e] w0]; simpl;
    try congruence.
  intros _. split; [exact Haws|]. exists w0. reflexivity.
Qed.

(** C2. When the subprocess the step spawned reports a spawn error or
    an exit status above zero, the step throws an error and the service
    (every function's artifact and runtime, the provider's default
    runtime) is what it was. *)
Theorem failed_build_throws_and_mutates_nothing this w :
  spawned (snd (run this w)) <> spawned w ->
  reportsFailure (outcome this) ->
  (exists message, fst (run this w) = Throw (Error message)) /\
  service (snd (run this w)) = service w.
Proof.
  intros Hspawned Hfail.
  destruct (spawned_then_built this w Hspawned) as [Haws [w0 Hsel]].
  apply buildFailed_iff in Hfail.
  rewrite build_cases, Haws, Hsel, Hfail. simpl.
  split; [eexists; reflexivity|reflexivity].
Qed.

(** C6, as the code has it. On a failed subprocess the line logged last
    includes the rendering of the spawn error and the exit status; the
    error thrown carries the spawn error's rendering as its message
    when there is one, and an empty message otherwise. *)
Theorem failed_build_logs_error_and_status this w :
  spawned (snd (run this w)) <> spawned w ->
  reportsFailure (outcome this) ->
  fst (run this w)
  = Throw (Error (default "" (spawn_error (outcome this)))) /\
  (forall e, spawn_error (outcome this) = Some e ->
             exists message,
               fst (run this w) = Throw (Error message) /\
               Js.includes message e) /\
  exists line,
    last (cli_log (snd (run this w))) = Some line /\
    Js.includes line (Js.to_string (spawn_error (outcome this))) /\
    Js.includes line (Js.number_to_string (spawn_status (outcome this))).
Proof.
  intros Hspawned Hfail.
  destruct (spawned_then_built this w Hspawned) as [Haws [w0 Hsel]].
  apply buildFailed_iff in Hfail.
  rewrite build_cases, Haws, Hsel, Hfail. simpl.
  split; [reflexivity|]. split.
  - intros e ->. exists e. split; [reflexivity|].
    exists "", "". simpl. rewrite append_empty_r. reflexivity.
  - exists (buildFailedLine (outcome this)). split; [apply last_snoc|].
    unfold buildFailedLine. split.
    + exists "Rust build encountered an error: ",
        (" " +:+ Js.number_to_string (spawn_status (outcome this)) +:+ ".").
      reflexivity.
    + exists ("Rust build encountered an error: "
              +:+ Js.to_string (spawn_error (outcome this)) +:+ " "), ".".
      rewrite !append_assoc. reflexivity.
Qed.

(** A successful subprocess is followed by the rewriting loop, whose
    first iteration evaluates [profile]: where the global object does
    not bind it, the step throws a ReferenceError with the service
    untouched. *)
Lemma successful_build_hits_undeclared_profile this w :
  spawned (snd (run this w)) <> spawned w ->
  buildFailed (outcome this) = false ->
  globalThis !! "profile" = None ->
  run this w = (Throw (ReferenceError "profile"), built this w).
Proof.
  intros Hspawned Hok Hunbound.
  destruct (spawned_then_built this w Hspawned) as [Haws [w0 Hsel]].
  rewrite build_cases, Haws, Hsel, Hok. simpl.
  destruct (selection_found_first _ _ _ Hsel) as [n [rest [f [-> Hf]]]].
  simpl. unfold bind at 1, rewriteFunction, bind at 1.
  rewrite getFunction_inspect. simpl. rewrite Hf.
  unfold bind at 1, resolveIdentifier at 1. rewrite Hunbound. reflexivity.
Qed.

End BuildProperties.

(** ** The rewriting loop where [profile] and [binary] are bound *)

Lemma storeFunction_twice fs name f g :
  storeFunction (storeFunction fs name f) name g = storeFunction fs name g.
Proof.
  induction fs as [|[n h] fs IH]; [reflexivity|].
  simpl. destruct (String.eqb n name) eqn:Hn; simpl; rewrite Hn; [reflexivity|].
  rewrite IH. reflexivity.
Qed.

Lemma lookup_storeFunction fs name f g :
  lookupFunction fs name = Some f ->
  lookupFunction (storeFunction fs name g) name = Some g.
Proof.
  induction fs as [|[n h] fs IH]; [discriminate|].
  simpl. destruct (String.eqb n name) eqn:Hn; simpl; rewrite Hn; [reflexivity|].
  exact IH.
Qed.

(** One iteration on a declared function: the artifact is assigned
    whatever the function's runtime is, from the global [profile] and
    [binary]; the runtime is replaced only when it is ['rust']. *)
Lemma rewriteFunction_effect path_join globalThis this name w f p b :
  globalThis !! "profile" = Some p ->
  globalThis !! "binary" = Some b ->
  lookupFunction (service_functions (service w)) name = Some f ->
  rewriteFunction path_join globalThis this tt name w =
  (Normal tt,
   {| service :=
        {| provider := provider (service w);
           service_functions :=
             storeFunction (service_functions (service w)) name
               {| func_handler := func_handler f;
                  func_runtime :=
                    if Js.eq_str (func_runtime f) RUST_RUNTIME
                    then Some BASE_RUNTIME else func_runtime f;
                  func_package :=
                    Some {| artifact :=
                              Some (path_join [srcPath this; artifactDir p;
                                               b +:+ ".zip"]);
                            package_rest :=
                              package_rest (default emptyPackage (func_package f)) |} |};
           custom_rust := custom_rust (service w);
           excludeDevDependencies := excludeDevDependencies (service w) |};
      cli_log := cli_log w;
      spawned := spawned w |}).
Proof.
  intros Hp Hb Hf.
  unfold rewriteFunction, bind at 1. rewrite getFunction_inspect, Hf.
  unfold bind at 1, resolveIdentifier at 1. rewrite Hp.
  unfold bind at 1, resolveIdentifier at 1. rewrite Hb.
  unfold ret at 1 2. unfold bind, writeFunction, getService, setService, bind, ret.
  simpl. destruct (Js.eq_str (func_runtime f) RUST_RUNTIME); simpl.
  - rewrite storeFunction_twice. reflexivity.
  - destruct w as [[pr fs cr ex] lg sp]. reflexivity.
Qed.

(** ** Closed instances *)

Lemma build_skips_other_provider_witness :
  Sample.run (Sample.exits 0) ∅ (Sample.pluginOf None Sample.defaults)
    (Sample.worldOf (Sample.serviceOf "google" (Some "rust")
                       [("hello", Sample.hello)]))
  = (Normal tt,
     Sample.worldOf (Sample.serviceOf "google" (Some "rust")
                       [("hello", Sample.hello)])).
Proof.
  apply (build_skips_other_provider Sample.join Sample.home ∅
           (Sample.exits 0) ∅ (Sample.pluginOf None Sample.defaults)
           (Sample.worldOf (Sample.serviceOf "google" (Some "rust")
                              [("hello", Sample.hello)]))).
  simpl. discriminate.
Defined.

Lemma build_throws_when_no_rust_function_witness :
  exists message w',
    Sample.run (Sample.exits 0) ∅ (Sample.pluginOf None Sample.defaults)
      (Sample.worldOf (Sample.serviceOf "aws" None [("web", Sample.web)]))
    = (Throw (Error message), w') /\
    Js.includes message RUST_RUNTIME /\
    spawned w' = [] /\
    w' = Sample.worldOf (Sample.serviceOf "aws" None [("web", Sample.web)]).
Proof.
  apply (build_throws_when_no_rust_function Sample.join Sample.home ∅
           (Sample.exits 0) ∅ (Sample.pluginOf None Sample.defaults)
           (Sample.worldOf (Sample.serviceOf "aws" None [("web", Sample.web)]))).
  - reflexivity.
  - simpl. discriminate.
  - simpl. intros n f [<-|[]]. simpl. intros Hf. injection Hf as <-.
    vm_compute. discriminate.
Defined.

Lemma failed_build_throws_and_mutates_nothing_witness :
  (exists message,
     fst (Sample.run (Sample.exits 2) ∅ (Sample.pluginOf None Sample.defaults)
            (Sample.worldOf (Sample.serviceOf "aws" (Some "rust")
                               [("hello", Sample.hello)])))
     = Throw (Error message)) /\
  service (snd (Sample.run (Sample.exits 2) ∅
                  (Sample.pluginOf None Sample.defaults)
                  (Sample.worldOf (Sample.serviceOf "aws" (Some "rust")
                                     [("hello", Sample.hello)]))))
  = Sample.serviceOf "aws" (Some "rust") [("hello", Sample.hello)].
Proof.
  apply (failed_build_throws_and_mutates_nothing Sample.join Sample.home ∅
           (Sample.exits 2) ∅ (Sample.pluginOf None Sample.defaults)
           (Sample.worldOf (Sample.serviceOf "aws" (Some "rust")
                              [("hello", Sample.hello)]))).
  - vm_compute. discriminate.
  - right. exists 2. split; [reflexivity|lia].
Defined.

Lemma failed_build_logs_error_and_status_witness :
  fst (Sample.run (Sample.exits 2) ∅ (Sample.pluginOf None Sample.defaults)
         (Sample.worldOf (Sample.serviceOf "aws" None [("hello", Sample.hello)])))
  = Throw (Error "") /\
  (forall e, None = Some e ->
             exists message,
               fst (Sample.run (Sample.exits 2) ∅
                      (Sample.pluginOf None Sample.defaults)
                      (Sample.worldOf (Sample.serviceOf "aws" None
                                         [("hello", Sample.hello)])))
               = Throw (Error message) /\
               Js.includes message e) /\
  exists line,
    last (cli_log (snd (Sample.run (Sample.exits 2) ∅
                          (Sample.pluginOf None Sample.defaults)
                          (Sample.worldOf (Sample.serviceOf "aws" None
                                             [("hello", Sample.hello)])))))
    = Some line /\
    Js.includes line "undefined" /\
    Js.includes line "2".
Proof.
  apply (failed_build_logs_error_and_status Sample.join Sample.home ∅
           (Sample.exits 2) ∅ (Sample.pluginOf None Sample.defaults)
           (Sample.worldOf (Sample.serviceOf "aws" None
                              [("hello", Sample.hello)]))).
  - vm_compute. discriminate.
  - right. exists 2. split; [reflexivity|lia].
Defined.

Lemma empty_string_includes_nothing (needle : string) :
  needle <> "" -> ~ Js.includes "" needle.
Proof.
  intros Hne [before [after H]].
  destruct before as [|c before]; [|discriminate H].
  destruct needle as [|c needle]; [congruence|discriminate H].
Qed.

(** C6, as the claim states it, fails: a subprocess that exits with
    status 1 and no spawn error makes the step throw an error whose
    message is empty, so the status is not in it. *)
Lemma thrown_message_omits_exit_status :
  fst (Sample.run (Sample.exits 1) ∅ (Sample.pluginOf None Sample.defaults)
         (Sample.worldOf (Sample.serviceOf "aws" None [("hello", Sample.hello)])))
  = Throw (Error "") /\
  ~ Js.includes "" (Js.number_to_string (Some 1)).
Proof.
  split; [vm_compute; reflexivity|].
  apply empty_string_includes_nothing. vm_compute. discriminate.
Qed.

(** ** Successful builds under the stock global object *)

(** C1. A build of one ['rust'] function under provider ['aws'] with
    default runtime ['rust'], whose subprocess exits with status 0: the
    step throws a ReferenceError on [profile] in the first iteration of
    the rewriting loop, so the function has no artifact, its runtime is
    still ['rust'] and so is the provider's default runtime. *)
Theorem successful_build_rewrites_nothing :
  fst (Sample.run (Sample.exits 0) ∅ (Sample.pluginOf None Sample.defaults)
         (Sample.worldOf (Sample.serviceOf "aws" (Some "rust")
                            [("hello", Sample.hello)])))
  = Throw (ReferenceError "profile") /\
  service (snd (Sample.run (Sample.exits 0) ∅
                  (Sample.pluginOf None Sample.defaults)
                  (Sample.worldOf (Sample.serviceOf "aws" (Some "rust")
                                     [("hello", Sample.hello)]))))
  = Sample.serviceOf "aws" (Some "rust")
      [("hello", {| func_handler := "hello"; func_runtime := Some "rust";
                    func_package := None |})].
Proof. split; vm_compute; reflexivity. Qed.

(** C5. With the configured profile ["dev"] and a subprocess that exits
    with status 0, no artifact path is computed: the loop reads the
    undeclared identifier [profile], not the configuration.  Where the
    global object binds [profile] and [binary], the directory follows
    that binding: configured ["dev"], global ["release"], and the path
    lies under the release directory. *)
Theorem artifact_path_ignores_configured_profile :
  Sample.run (Sample.exits 0) ∅ (Sample.pluginOf None Sample.devProfile)
    (Sample.worldOf (Sample.serviceOf "aws" None [("hello", Sample.hello)]))
  = (Throw (ReferenceError "profile"),
     afterDockerBuild Sample.join Sample.home ∅
       (Sample.pluginOf None Sample.devProfile)
       (Sample.worldOf (Sample.serviceOf "aws" None [("hello", Sample.hello)])))
  /\
  lookupFunction
    (service_functions
       (service (snd (Sample.run (Sample.exits 0)
                        (<["profile" := "release"]> (<["binary" := "hello"]> ∅))
                        (Sample.pluginOf None Sample.devProfile)
                        (Sample.worldOf (Sample.serviceOf "aws" None
                                           [("hello", Sample.hello)]))))))
    "hello"
  = Some {| func_handler := "hello"; func_runtime := Some "provided.al2";
            func_package :=
              Some {| artifact := Some "/srv/app/target/lambda/release/hello.zip";
                      package_rest := [] |} |}.
Proof. split; vm_compute; reflexivity. Qed.

(** C10. With a ['rust'] function and a ['nodejs18.x'] function in scope
    and a subprocess that exits with status 0, the rewriting loop throws
    in its first iteration: neither function is assigned an artifact. *)
Theorem rewriting_loop_assigns_no_artifact :
  fst (Sample.run (Sample.exits 0) ∅ (Sample.pluginOf None Sample.defaults)
         (Sample.worldOf (Sample.serviceOf "aws" None
                            [("hello", Sample.hello); ("web", Sample.web)])))
  = Throw (ReferenceError "profile") /\
  map (fun entry => func_package (snd entry))
    (service_functions
       (service (snd (Sample.run (Sample.exits 0) ∅
                        (Sample.pluginOf None Sample.defaults)
                        (Sample.worldOf (Sample.serviceOf "aws" None
                                           [("hello", Sample.hello);
                                            ("web", Sample.web)]))))))
  = [None; None].
Proof. split; vm_compute; reflexivity. Qed.

(** ** Sanity checks of the primitives *)

Example includeInvokeHook_1_38 : includeInvokeHook "1.38.0" = true.
Proof. reflexivity. Qed.
Example includeInvokeHook_1_39 : includeInvokeHook "1.39.12" = true.
Proof. reflexivity. Qed.
Example includeInvokeHook_1_40 : includeInvokeHook "1.40.0" = false.
Proof. reflexivity. Qed.
Example includeInvokeHook_2_39 : includeInvokeHook "2.39.1" = false.
Proof. reflexivity. Qed.
Example includeInvokeHook_hexadecimal : includeInvokeHook "1.0x27" = true.
Proof. reflexivity. Qed.
Example includeInvokeHook_no_minor : includeInvokeHook "1" = false.
Proof. reflexivity. Qed.
Example split_keeps_empty_pieces : Js.split " " "a  b" = ["a"; ""; "b"].
Proof. reflexivity. Qed.
Example number_to_string_negative : Js.number_to_string (Some (-1)) = "-1".
Proof. reflexivity. Qed.
Example dockerBuildArgs_package_and_profile :
  dockerBuildArgs (Sample.pluginOf None Sample.defaults) (Some "api")
    (Some "dev") "/srv/app" "/c/registry" "/c/git"
    (<["SLS_DOCKER_ARGS" := "--network host"]> ∅)
  = ["run"; "--rm"; "-t"; "-e"; "-v"; "/srv/app:/code";
     "-v"; "/c/registry:/cargo/registry"; "-v"; "/c/git:/cargo/git";
     "--network"; "host"; "-e"; "PROFILE=dev"; "-e"; "CARGO_FLAGS= -p api";
     "latest:softprops/lambda-rust"].
Proof. vm_compute. reflexivity. Qed.


(** * Further properties of the module *)

(** ** The version gate *)

(** X1. The components after the minor one do not matter: a version
    ["<major>.<minor>.<rest>"] passes the gate exactly when
    ["<major>.<minor>"] does. *)
Theorem invoke_hook_ignores_later_components (major minor rest : string) :
  occurs "." major = false ->
  occurs "." minor = false ->
  includeInvokeHook (major +:+ "." +:+ minor +:+ "." +:+ rest)
  = includeInvokeHook (major +:+ "." +:+ minor).
Proof.
  intros Hmaj Hmin.
  assert (forall tail, tail = "" \/ (exists r, tail = String "." r) ->
            includeInvokeHook (major +:+ "." +:+ minor +:+ tail)
            = Js.num_eq (Js.parseInt major) 1
              && Js.num_ge (Js.parseInt minor) 38
              && Js.num_lt (Js.parseInt minor) 40) as Hform.
  { intros tail Htail.
    destruct (split_version major minor tail Hmaj Hmin Htail) as [more Hs].
    unfold includeInvokeHook. rewrite Hs. reflexivity. }
  rewrite (Hform ("." +:+ rest)) by (right; exists rest; reflexivity).
  rewrite <- (Hform "") by (left; reflexivity).
  rewrite append_empty_r. reflexivity.
Qed.

Lemma invoke_hook_ignores_later_components_witness :
  includeInvokeHook ("1" +:+ "." +:+ "39" +:+ "." +:+ "7-beta.2")
  = includeInvokeHook ("1" +:+ "." +:+ "39").
Proof.
  apply (invoke_hook_ignores_later_components "1" "39" "7-beta.2");
    reflexivity.
Defined.

(** X2. A version string without a dot has no minor component, and the
    hook is not included whatever the string is. *)
Theorem invoke_hook_needs_minor_component (serverlessVersion : string) :
  occurs "." serverlessVersion = false ->
  includeInvokeHook serverlessVersion = false.
Proof.
  intros Hnone. unfold includeInvokeHook.
  rewrite (split_no_separator _ _ Hnone). simpl.
  apply andb_false_r.
Qed.

Lemma invoke_hook_needs_minor_component_witness :
  includeInvokeHook "138" = false.
Proof. apply (invoke_hook_needs_minor_component "138"). reflexivity. Defined.

(** ** The argument assembler, in full *)

Lemma truthy_append_r (s t : string) :
  Js.truthy t = true -> Js.truthy (s +:+ t) = true.
Proof. destruct s; [rewrite append_nil; trivial|reflexivity]. Qed.

Lemma defaultDockerArgs_truthy srcPath reg dl :
  List.filter Js.truthy (defaultDockerArgs srcPath reg dl)
  = defaultDockerArgs srcPath reg dl.
Proof.
  unfold defaultDockerArgs. cbn [List.filter Js.truthy].
  rewrite !truthy_append_r by reflexivity. reflexivity.
Qed.

Lemma profileArgs_truthy (profile : option string) :
  List.filter Js.truthy (profileArgs profile) = profileArgs profile.
Proof. unfold profileArgs. destruct (Js.truthy_opt profile); reflexivity. Qed.

(** The result of [dockerBuildArgs] with the filter carried out. *)
Lemma dockerBuildArgs_decomposed
  (this : RustPlugin) (pkg profile : option string)
  (srcPath reg dl : string) (env : gmap string string) :
  dockerBuildArgs this pkg profile srcPath reg dl env
  = ["run"; "--rm"; "-t"; "-e";
     "-v"; srcPath +:+ ":/code";
     "-v"; reg +:+ ":/cargo/registry";
     "-v"; dl +:+ ":/cargo/git"]
    ++ extraDockerArgs env
    ++ (if Js.truthy_opt profile
        then ["-e"; "PROFILE=" +:+ Js.to_string profile] else [])
    ++ (if Js.truthy (assembleCargoFlags (cargoFlags (custom this)) pkg)
        then ["-e"; "CARGO_FLAGS="
                    +:+ assembleCargoFlags (cargoFlags (custom this)) pkg]
        else [])
    ++ [dockerTag (custom this) +:+ ":" +:+ dockerImage (custom this)].
Proof.
  rewrite dockerBuildArgs_shape.
  rewrite !List.filter_app, profileArgs_truthy.
  change (List.filter Js.truthy
            ["run"; "--rm"; "-t"; "-e"; "-v"; srcPath +:+ ":/code";
             "-v"; reg +:+ ":/cargo/registry"; "-v"; dl +:+ ":/cargo/git"])
    with (List.filter Js.truthy (defaultDockerArgs srcPath reg dl)).
  rewrite defaultDockerArgs_truthy, <- !app_assoc. reflexivity.
Qed.

(** X3. The final filter only ever drops empty pieces of
    [SLS_DOCKER_ARGS]: the result is the ten fixed arguments (whatever the
    three paths are, empty included), the non-empty pieces of the
    variable, the [PROFILE] pair when the profile is a non-empty string,
    the [CARGO_FLAGS] pair when the flags are non-empty, and the image
    reference, in this order. *)
Theorem docker_args_in_order
  (this : RustPlugin) (pkg profile : option string)
  (srcPath reg dl : string) (env : gmap string string) :
  dockerBuildArgs this pkg profile srcPath reg dl env
  = ["run"; "--rm"; "-t"; "-e";
     "-v"; srcPath +:+ ":/code";
     "-v"; reg +:+ ":/cargo/registry";
     "-v"; dl +:+ ":/cargo/git"]
    ++ extraDockerArgs env
    ++ (if Js.truthy_opt profile
        then ["-e"; "PROFILE=" +:+ Js.to_string profile] else [])
    ++ (if Js.truthy (assembleCargoFlags (cargoFlags (custom this)) pkg)
        then ["-e"; "CARGO_FLAGS="
                    +:+ assembleCargoFlags (cargoFlags (custom this)) pkg]
        else [])
    ++ [dockerTag (custom this) +:+ ":" +:+ dockerImage (custom this)].
Proof. apply dockerBuildArgs_decomposed. Qed.

Lemma extra_args_of_joined (pieces : list string) :
  Forall (fun piece => piece <> "" /\ occurs " " piece = false) pieces ->
  List.filter Js.truthy (Js.split " " (String.concat " " pieces)) = pieces.
Proof.
  induction 1 as [|piece pieces [Hne Hsp] Hrest IH]; [reflexivity|].
  destruct pieces as [|next pieces].
  - simpl String.concat. rewrite (split_no_separator _ _ Hsp). simpl.
    apply truthy_true_iff in Hne. rewrite Hne. reflexivity.
  - change (String.concat " " (piece :: next :: pieces))
      with (piece +:+ String " " (String.concat " " (next :: pieces))).
    rewrite (split_at_separator _ _ _ Hsp). cbn [List.filter].
    apply truthy_true_iff in Hne. rewrite Hne, IH. reflexivity.
Qed.

(** X4. Extra arguments written as non-empty, space-free words joined by
    single spaces in [SLS_DOCKER_ARGS] reach the command line as exactly
    those words, in order, right after the ten fixed arguments. *)
Theorem docker_args_carry_extra_words
  (this : RustPlugin) (pkg profile : option string)
  (srcPath reg dl : string) (env : gmap string string)
  (words : list string) :
  Forall (fun word => word <> "" /\ occurs " " word = false) words ->
  env !! "SLS_DOCKER_ARGS" = Some (String.concat " " words) ->
  exists tail,
    dockerBuildArgs this pkg profile srcPath reg dl env
    = defaultDockerArgs srcPath reg dl ++ words ++ tail /\
    forall env', dockerBuildArgs this pkg profile srcPath reg dl env'
                 = defaultDockerArgs srcPath reg dl ++ extraDockerArgs env' ++ tail.
Proof.
  intros Hwords Henv.
  eexists. split.
  - rewrite dockerBuildArgs_decomposed. unfold extraDockerArgs, defaultDockerArgs.
    rewrite Henv.
    replace (Js.or_str (Some (String.concat " " words)) "")
      with (String.concat " " words).
    + rewrite (extra_args_of_joined _ Hwords). reflexivity.
    + unfold Js.or_str. destruct (String.concat " " words); reflexivity.
  - intros env'. rewrite dockerBuildArgs_decomposed. reflexivity.
Qed.

Lemma docker_args_carry_extra_words_witness :
  exists tail,
    dockerBuildArgs (Sample.pluginOf None Sample.defaults) None (Some "dev")
      "/srv/app" "/c/registry" "/c/git"
      (<["SLS_DOCKER_ARGS" := "--network host"]> ∅)
    = defaultDockerArgs "/srv/app" "/c/registry" "/c/git"
      ++ ["--network"; "host"] ++ tail /\
    forall env',
      dockerBuildArgs (Sample.pluginOf None Sample.defaults) None (Some "dev")
        "/srv/app" "/c/registry" "/c/git" env'
      = defaultDockerArgs "/srv/app" "/c/registry" "/c/git"
        ++ extraDockerArgs env' ++ tail.
Proof.
  apply (docker_args_carry_extra_words (Sample.pluginOf None Sample.defaults)
           None (Some "dev") "/srv/app" "/c/registry" "/c/git"
           (<["SLS_DOCKER_ARGS" := "--network host"]> ∅)
           ["--network"; "host"]).
  - repeat constructor; discriminate.
  - vm_compute. reflexivity.
Defined.

(** X5. With [SLS_DOCKER_ARGS] unset, no profile (or an empty one), no
    package and empty cargo flags, the command line is the ten fixed
    arguments followed by the image reference and nothing else: no
    [PROFILE] and no [CARGO_FLAGS] override. *)
Theorem docker_args_without_options
  (this : RustPlugin) (profile : option string)
  (srcPath reg dl : string) (env : gmap string string) :
  env !! "SLS_DOCKER_ARGS" = None ->
  Js.truthy_opt profile = false ->
  cargoFlags (custom this) = "" ->
  dockerBuildArgs this None profile srcPath reg dl env
  = ["run"; "--rm"; "-t"; "-e";
     "-v"; srcPath +:+ ":/code";
     "-v"; reg +:+ ":/cargo/registry";
     "-v"; dl +:+ ":/cargo/git";
     dockerTag (custom this) +:+ ":" +:+ dockerImage (custom this)].
Proof.
  intros Henv Hprofile Hflags.
  rewrite dockerBuildArgs_decomposed. unfold extraDockerArgs.
  rewrite Henv, Hprofile. simpl assembleCargoFlags. rewrite Hflags.
  reflexivity.
Qed.

Lemma docker_args_without_options_witness :
  dockerBuildArgs (Sample.pluginOf None Sample.defaults) None (Some "")
    "/srv/app" "/c/registry" "/c/git" (<["CARGO_HOME" := "/c"]> ∅)
  = ["run"; "--rm"; "-t"; "-e";
     "-v"; "/srv/app" +:+ ":/code";
     "-v"; "/c/registry" +:+ ":/cargo/registry";
     "-v"; "/c/git" +:+ ":/cargo/git";
     "latest" +:+ ":" +:+ "softprops/lambda-rust"].
Proof.
  apply (docker_args_without_options (Sample.pluginOf None Sample.defaults)
           (Some "") "/srv/app" "/c/registry" "/c/git"
           (<["CARGO_HOME" := "/c"]> ∅)).
  - vm_compute. reflexivity.
  - reflexivity.
  - reflexivity.
Defined.

(** ** The constructor and the command line *)

(** X6. The constructor never throws; it registers the four packaging,
    deploy and offline hooks whatever the host version is; and the only
    thing it changes in the service is [excludeDevDependencies], which is
    false afterwards even where the service file had set it. *)
Theorem constructor_registers_hooks_and_disables_dev_filter
  (path_resolve : string -> string) (serverless : Serverless)
  (options : option string) (w : World) :
  exists this,
    constructor path_resolve serverless options w
    = (Normal this,
       {| service :=
            {| provider := provider (service w);
               service_functions := service_functions (service w);
               custom_rust := custom_rust (service w);
               excludeDevDependencies := Some false |};
          cli_log := cli_log w;
          spawned := spawned w |}) /\
    Forall (fun name => In (name, BuildHandler) (hooks this))
      ["before:package:createDeploymentArtifacts";
       "before:deploy:function:packageFunction";
       "before:offline:start";
       "before:offline:start:init"] /\
    options_function this = options.
Proof.
  unfold constructor, bind, getService, writeExcludeDevDependencies,
    setService, ret. simpl.
  eexists. split; [reflexivity|]. simpl. split; [|reflexivity].
  destruct (includeInvokeHook (version serverless));
    repeat (apply List.Forall_cons; [simpl; auto 10|]); apply List.Forall_nil.
Qed.

Section CommandLine.

Variable path_resolve : string -> string.
Variable path_join : list string -> string.
Variable homedir : string.
Variable process_env : gmap string string.


(** X8. With [SLS_DOCKER_CLI] unset or empty the executable is
    ["docker"], and with [CARGO_HOME] unset or empty the registry and git
    caches mounted are [registry] and [git] under [.cargo] in the home
    directory. *)
Theorem docker_command_defaults (this : RustPlugin)
  (pkg profile : option string) :
  Js.truthy_opt (process_env !! "SLS_DOCKER_CLI") = false ->
  Js.truthy_opt (process_env !! "CARGO_HOME") = false ->
  fst (dockerCommand path_join homedir process_env this pkg profile) = "docker" /\
  snd (dockerCommand path_join homedir process_env this pkg profile) !! 7%nat
  = Some (path_join [path_join [homedir; ".cargo"]; "registry"]
          +:+ ":/cargo/registry") /\
  snd (dockerCommand path_join homedir process_env this pkg profile) !! 9%nat
  = Some (path_join [path_join [homedir; ".cargo"]; "git"] +:+ ":/cargo/git").
Proof.
  intros Hcli Hhome. unfold dockerCommand. cbn [fst snd].
  rewrite dockerBuildArgs_decomposed.
  assert (forall v d, Js.truthy_opt v = false -> Js.or_str v d = d) as Hor.
  { intros [x|] d; simpl; [|reflexivity]. intros ->. reflexivity. }
  rewrite !(Hor _ _ Hcli), !(Hor _ _ Hhome). repeat split; reflexivity.
Qed.

(** X9. A non-empty [SLS_DOCKER_CLI] replaces the executable and a
    non-empty [CARGO_HOME] replaces the cache root, without changing any
    other argument. *)
Theorem docker_command_overrides (this : RustPlugin)
  (pkg profile : option string) (cli cargoHome : string) :
  cli <> "" -> cargoHome <> "" ->
  process_env !! "SLS_DOCKER_CLI" = Some cli ->
  process_env !! "CARGO_HOME" = Some cargoHome ->
  dockerCommand path_join homedir process_env this pkg profile
  = (cli,
     dockerBuildArgs this pkg profile (srcPath this)
       (path_join [cargoHome; "registry"]) (path_join [cargoHome; "git"])
       process_env).
Proof.
  intros Hcli Hhome Ecli Ehome. unfold dockerCommand.
  rewrite Ecli, Ehome. unfold Js.or_str.
  apply truthy_true_iff in Hcli, Hhome. rewrite Hcli, Hhome. reflexivity.
Qed.

End CommandLine.

Lemma docker_command_defaults_witness :
  fst (dockerCommand Sample.join Sample.home (<["SLS_DOCKER_CLI" := ""]> ∅)
         (Sample.pluginOf None Sample.defaults) None None) = "docker" /\
  snd (dockerCommand Sample.join Sample.home (<["SLS_DOCKER_CLI" := ""]> ∅)
         (Sample.pluginOf None Sample.defaults) None None) !! 7%nat
  = Some (Sample.join [Sample.join [Sample.home; ".cargo"]; "registry"]
          +:+ ":/cargo/registry") /\
  snd (dockerCommand Sample.join Sample.home (<["SLS_DOCKER_CLI" := ""]> ∅)
         (Sample.pluginOf None Sample.defaults) None None) !! 9%nat
  = Some (Sample.join [Sample.join [Sample.home; ".cargo"]; "git"]
          +:+ ":/cargo/git").
Proof.
  apply (docker_command_defaults Sample.join Sample.home
           (<["SLS_DOCKER_CLI" := ""]> ∅)
           (Sample.pluginOf None Sample.defaults) None None).
  - vm_compute. reflexivity.
  - vm_compute. reflexivity.
Defined.

Lemma docker_command_overrides_witness :
  dockerCommand Sample.join Sample.home
    (<["SLS_DOCKER_CLI" := "podman"]> (<["CARGO_HOME" := "/opt/cargo"]> ∅))
    (Sample.pluginOf None Sample.defaults) None None
  = ("podman",
     dockerBuildArgs (Sample.pluginOf None Sample.defaults) None None
       (srcPath (Sample.pluginOf None Sample.defaults))
       (Sample.join ["/opt/cargo"; "registry"])
       (Sample.join ["/opt/cargo"; "git"])
       (<["SLS_DOCKER_CLI" := "podman"]> (<["CARGO_HOME" := "/opt/cargo"]> ∅))).
Proof.
  apply (docker_command_overrides Sample.join Sample.home
           (<["SLS_DOCKER_CLI" := "podman"]> (<["CARGO_HOME" := "/opt/cargo"]> ∅))
           (Sample.pluginOf None Sample.defaults) None None
           "podman" "/opt/cargo").
  - discriminate.
  - discriminate.
  - vm_compute. reflexivity.
  - vm_compute. reflexivity.
Defined.

(** ** The function store *)

Lemma lookup_storeFunction_cases fs m g n :
  lookupFunction (storeFunction fs m g) n =
  if String.eqb m n
  then match lookupFunction fs m with Some _ => Some g | None => None end
  else lookupFunction fs n.
Proof.
  induction fs as [|[k h] fs IH]; simpl.
  - destruct (String.eqb m n); reflexivity.
  - destruct (String.eqb k m) eqn:Hkm; simpl.
    + apply String.eqb_eq in Hkm. subst k.
      destruct (String.eqb m n); reflexivity.
    + rewrite IH. destruct (String.eqb m n) eqn:Hmn; [|reflexivity].
      apply String.eqb_eq in Hmn. subst n. rewrite Hkm. reflexivity.
Qed.

Lemma storeFunction_declarations fs m f g :
  lookupFunction fs m = Some f ->
  func_handler g = func_handler f ->
  map (fun entry => (fst entry, func_handler (snd entry))) (storeFunction fs m g)
  = map (fun entry => (fst entry, func_handler (snd entry))) fs.
Proof.
  intros Hf Hh. induction fs as [|[k h] fs IH]; [reflexivity|].
  simpl in *. destruct (String.eqb k m) eqn:Hkm; simpl.
  - injection Hf as ->. rewrite Hh. reflexivity.
  - rewrite (IH Hf). reflexivity.
Qed.

Lemma storeFunction_names fs m g :
  map fst (storeFunction fs m g) = map fst fs.
Proof.
  induction fs as [|[k h] fs IH]; [reflexivity|].
  simpl. destruct (String.eqb k m); simpl; [reflexivity|].
  rewrite IH. reflexivity.
Qed.

(** A loop keeps what each of its iterations keeps, also when one of
    them throws. *)
Lemma forEach_preserves {A S : Type} (body : S -> A -> M S)
  (P : World -> Prop) (xs : list A) :
  (forall acc x w, In x xs -> P w -> P (snd (body acc x w))) ->
  forall acc w, P w -> P (snd (forEach xs body acc w)).
Proof.
  induction xs as [|x xs IH]; intros Hbody acc w Hw; [exact Hw|].
  simpl. unfold bind.
  pose proof (Hbody acc x w (or_introl eq_refl) Hw) as Hstep.
  destruct (body acc x w) as [[acc'|e] w1]; simpl in Hstep; [|exact Hstep].
  apply IH; [|exact Hstep].
  intros acc0 y w0 Hy. apply Hbody. right. exact Hy.
Qed.

Section RewritingLoop.

Variable path_join : list string -> string.
Variable globalThis : gmap string string.

Local Abbreviation rewriteOne := (rewriteFunction path_join globalThis).

(** One iteration, by what it finds. *)
Lemma rewriteFunction_inspect this name w :
  rewriteOne this tt name w =
  match lookupFunction (service_functions (service w)) name with
  | None => (Throw (ServerlessError (unknownFunctionMessage name)), w)
  | Some f =>
      match globalThis !! "profile", globalThis !! "binary" with
      | None, _ => (Throw (ReferenceError "profile"), w)
      | Some _, None => (Throw (ReferenceError "binary"), w)
      | Some p, Some b =>
          (Normal tt,
           withFunctions w
             (storeFunction (service_functions (service w)) name
                (rewrittenFunction path_join this p b f)))
      end
  end.
Proof.
  destruct (lookupFunction _ name) as [f|] eqn:Hf.
  - destruct (globalThis !! "profile") as [p|] eqn:Hp.
    + destruct (globalThis !! "binary") as [b|] eqn:Hb.
      * apply (rewriteFunction_effect _ _ _ _ _ _ _ _ Hp Hb Hf).
      * unfold rewriteFunction, bind at 1. rewrite getFunction_inspect, Hf.
        unfold bind at 1, resolveIdentifier at 1. rewrite Hp.
        unfold ret at 1, bind at 1, resolveIdentifier. rewrite Hb. reflexivity.
    + unfold rewriteFunction, bind at 1. rewrite getFunction_inspect, Hf.
      unfold bind at 1, resolveIdentifier at 1. rewrite Hp. reflexivity.
  - unfold rewriteFunction, bind at 1. rewrite getFunction_inspect, Hf.
    reflexivity.
Qed.

(** What one iteration leaves alone. *)
Lemma rewriteFunction_frame this name w :
  cli_log (snd (rewriteOne this tt name w)) = cli_log w /\
  spawned (snd (rewriteOne this tt name w)) = spawned w /\
  provider (service (snd (rewriteOne this tt name w))) = provider (service w) /\
  sameDeclarations w (snd (rewriteOne this tt name w)) /\
  forall n, n <> name ->
    lookupFunction (service_functions (service (snd (rewriteOne this tt name w)))) n
    = lookupFunction (service_functions (service w)) n.
Proof.
  rewrite rewriteFunction_inspect. unfold sameDeclarations.
  destruct (lookupFunction _ name) as [f|] eqn:Hf; [|repeat split].
  destruct (globalThis !! "profile") as [p|]; [|repeat split].
  destruct (globalThis !! "binary") as [b|]; [|repeat split].
  simpl. repeat split.
  - apply (storeFunction_declarations _ _ f); [exact Hf|reflexivity].
  - intros n Hn. rewrite lookup_storeFunction_cases.
    destruct (String.eqb name n) eqn:E; [|reflexivity].
    apply String.eqb_eq in E. congruence.
Qed.

(** What the whole loop leaves alone. *)
Lemma rewriting_loop_frame this names w :
  cli_log (snd (forEach names (rewriteOne this) tt w)) = cli_log w /\
  spawned (snd (forEach names (rewriteOne this) tt w)) = spawned w /\
  provider (service (snd (forEach names (rewriteOne this) tt w)))
  = provider (service w) /\
  sameDeclarations w (snd (forEach names (rewriteOne this) tt w)) /\
  forall n, ~ In n names ->
    lookupFunction
      (service_functions (service (snd (forEach names (rewriteOne this) tt w)))) n
    = lookupFunction (service_functions (service w)) n.
Proof.
  apply (forEach_preserves (rewriteOne this)
           (fun w' =>
              cli_log w' = cli_log w /\ spawned w' = spawned w /\
              provider (service w') = provider (service w) /\
              sameDeclarations w w' /\
              forall n, ~ In n names ->
                lookupFunction (service_functions (service w')) n
                = lookupFunction (service_functions (service w)) n)).
  - intros [] x w0 Hx (Hlog & Hsp & Hpr & (D1 & D2 & D3 & D4) & Hout).
    destruct (rewriteFunction_frame this x w0)
      as (Flog & Fsp & Fpr & (E1 & E2 & E3 & E4) & Fout).
    unfold sameDeclarations. repeat split; try congruence.
    intros n Hn. rewrite Fout by (intros ->; exact (Hn Hx)). apply Hout, Hn.
  - unfold sameDeclarations. repeat split.
Qed.

(** The loop throws nothing but the host's error for an undeclared name
    and a ReferenceError. *)
Lemma rewriting_loop_throws this names w e w' :
  forEach names (rewriteOne this) tt w = (Throw e, w') ->
  (exists identifier, e = ReferenceError identifier) \/
  (exists message, e = ServerlessError message).
Proof.
  revert w. induction names as [|n names IH]; intros w; [discriminate|].
  simpl. unfold bind. rewrite rewriteFunction_inspect.
  destruct (lookupFunction _ n) as [f|].
  - destruct (globalThis !! "profile") as [p|].
    + destruct (globalThis !! "binary") as [b|].
      * apply IH.
      * intros H. injection H as <- _. left. eexists. reflexivity.
    + intros H. injection H as <- _. left. eexists. reflexivity.
  - intros H. injection H as <- _. right. eexists. reflexivity.
Qed.

End RewritingLoop.

(** ** The selection loop *)

(** A selection that completed resolved every name. *)
Lemma selection_normal_declared names found w result w' :
  forEach names selectRust found w = (Normal result, w') ->
  Forall (fun n => lookupFunction (service_functions (service w)) n <> None)
    names.
Proof.
  revert found. induction names as [|n names IH]; intros found; [constructor|].
  simpl. unfold bind. rewrite selectRust_inspect, getFunction_inspect.
  destruct (lookupFunction _ n) as [f|] eqn:Hf; [|discriminate].
  intros H. constructor; [congruence|]. exact (IH _ H).
Qed.

Lemma selection_stays_found names w :
  Forall (fun n => lookupFunction (service_functions (service w)) n <> None)
    names ->
  forEach names selectRust true w = (Normal true, w).
Proof.
  induction 1 as [|n names Hn _ IH]; [reflexivity|].
  simpl. unfold bind. rewrite selectRust_inspect, getFunction_inspect.
  destruct (lookupFunction _ n) as [f|]; [|congruence].
  destruct (Js.eq_str _ _); exact IH.
Qed.

Lemma selection_finds names w :
  Forall (fun n => lookupFunction (service_functions (service w)) n <> None)
    names ->
  (exists n f, In n names /\
     lookupFunction (service_functions (service w)) n = Some f /\
     effectiveRuntime (service w) f = Some RUST_RUNTIME) ->
  forEach names selectRust false w = (Normal true, w).
Proof.
  induction 1 as [|m names Hm Hrest IH]; intros (n & f & Hin & Hf & Hr);
    [destruct Hin|].
  simpl. unfold bind. rewrite selectRust_inspect, getFunction_inspect.
  destruct (lookupFunction _ m) as [g|] eqn:Hg; [|congruence].
  destruct (Js.eq_str (effectiveRuntime (service w) g) RUST_RUNTIME) eqn:Hrust.
  - apply selection_stays_found, Hrest.
  - apply IH. exists n, f. split; [|split; assumption].
    destruct Hin as [->|Hin]; [|exact Hin].
    rewrite Hf in Hg. injection Hg as <-.
    rewrite Hr in Hrust. simpl in Hrust. discriminate.
Qed.

Lemma scope_declared this w :
  (Js.truthy_opt (options_function this) = true ->
   lookupFunction (service_functions (service w))
     (Js.to_string (options_function this)) <> None) ->
  Forall (fun n => lookupFunction (service_functions (service w)) n <> None)
    (scope this (service w)).
Proof.
  intros Hdeclared. unfold scope.
  destruct (Js.truthy_opt (options_function this)).
  - constructor; [exact (Hdeclared eq_refl)|constructor].
  - apply List.Forall_forall. intros n Hn.
    destruct (declared_name_resolves _ _ Hn) as [f Hf]. congruence.
Qed.

Lemma buildFailed_false_iff (res : SpawnResult) :
  buildFailed res = false <-> reportsSuccess res.
Proof.
  unfold buildFailed, reportsSuccess.
  destruct res as [[e|] [n|]]; simpl; rewrite ?Z.ltb_ge; split;
    try discriminate; try (intros [H _]; discriminate H); try reflexivity.
  - intros H. split; [reflexivity|]. right. exists n. split; [reflexivity|exact H].
  - intros [_ [H|[m [Hm H]]]]; [discriminate|]. injection Hm as ->. exact H.
  - intros _. split; [reflexivity|]. left. reflexivity.
Qed.

(** ** The build entry point, as a whole *)

Section BuildFrame.

Variable path_join : list string -> string.
Variable homedir : string.
Variable process_env : gmap string string.
Variable spawnSync : string -> list string -> SpawnResult.
Variable globalThis : gmap string string.

Local Abbreviation run := (build path_join homedir process_env spawnSync globalThis).
Local Abbreviation outcome := (dockerOutcome path_join homedir process_env spawnSync).
Local Abbreviation built := (afterDockerBuild path_join homedir process_env).
Local Abbreviation command :=
  (fun this => dockerCommand path_join homedir process_env this
                 (cargoPackage (custom this)) (profile (custom this))).

(** X10. Whatever happens, one invocation spawns at most one subprocess,
    the containerized build, and logs at most two lines: the
    announcement of the build and, only when the build failed, the
    diagnostic. *)
Theorem build_spawns_at_most_one_subprocess this w :
  (spawned (snd (run this w)) = spawned w /\
   cli_log (snd (run this w)) = cli_log w) \/
  (spawned (snd (run this w)) = spawned w ++ [command this] /\
   cli_log (snd (run this w))
   = cli_log w ++ ["Running containerized build"]
     ++ (if buildFailed (outcome this) then [buildFailedLine (outcome this)]
         else [])).
Proof.
  rewrite build_cases.
  destruct (negb _); [left; split; reflexivity|].
  destruct (forEach _ selectRust false w) as [[[|]|e] w0];
    try (left; split; reflexivity).
  right. destruct (buildFailed (outcome this)).
  - simpl. rewrite <- app_assoc. split; reflexivity.
  - destruct (rewriting_loop_frame path_join globalThis this
                (scope this (service w)) (built this w))
      as (Hlog & Hsp & _).
    destruct (forEach _ _ tt _) as [[[]|e] w']; simpl in *.
    + destruct (Js.eq_str _ _); simpl; rewrite Hlog, Hsp; split; reflexivity.
    + rewrite Hlog, Hsp. split; reflexivity.
Qed.

(** X11. No invocation, failed or not, changes the provider's name, the
    [custom.rust] object, [excludeDevDependencies], or the names, order
    and handlers of the declared functions. *)
Theorem build_keeps_declarations this w :
  sameDeclarations w (snd (run this w)).
Proof.
  rewrite build_cases.
  assert (sameDeclarations w w) as Hrefl by (unfold sameDeclarations; repeat split).
  destruct (negb _); [exact Hrefl|].
  destruct (forEach _ selectRust false w) as [[[|]|e] w0]; try exact Hrefl.
  destruct (buildFailed (outcome this)); [exact Hrefl|].
  destruct (rewriting_loop_frame path_join globalThis this
              (scope this (service w)) (built this w))
    as (_ & _ & _ & Hsame & _).
  destruct (forEach _ _ tt _) as [[[]|e] w']; simpl in *; [|exact Hsame].
  destruct (Js.eq_str _ _); [|exact Hsame].
  unfold sameDeclarations in *. simpl. exact Hsame.
Qed.

(** X12. A declared function that is not in scope (another one was
    named by the caller) is left exactly as it was: neither its artifact
    nor its runtime is touched. *)
Theorem build_leaves_functions_out_of_scope this w n :
  ~ In n (scope this (service w)) ->
  lookupFunction (service_functions (service (snd (run this w)))) n
  = lookupFunction (service_functions (service w)) n.
Proof.
  intros Hout. rewrite build_cases.
  destruct (negb _); [reflexivity|].
  destruct (forEach _ selectRust false w) as [[[|]|e] w0]; try reflexivity.
  destruct (buildFailed (outcome this)); [reflexivity|].
  destruct (rewriting_loop_frame path_join globalThis this
              (scope this (service w)) (built this w))
    as (_ & _ & _ & _ & Hkeep).
  specialize (Hkeep n Hout).
  destruct (forEach _ _ tt _) as [[[]|e] w']; simpl in *; [|exact Hkeep].
  destruct (Js.eq_str _ _); exact Hkeep.
Qed.


(** X14. With provider ['aws'], a declared caller-specified function if
    there is one, and some function in scope whose effective runtime is
    ['rust'] (its own, or the provider's when it has none), the step
    spawns the containerized build, once, after whatever was spawned
    before. *)
Theorem build_spawns_when_rust_function_in_scope this w :
  provider_name (provider (service w)) = "aws" ->
  (Js.truthy_opt (options_function this) = true ->
   lookupFunction (service_functions (service w))
     (Js.to_string (options_function this)) <> None) ->
  (exists n f, In n (scope this (service w)) /\
     lookupFunction (service_functions (service w)) n = Some f /\
     effectiveRuntime (service w) f = Some RUST_RUNTIME) ->
  spawned (snd (run this w)) = spawned w ++ [command this].
Proof.
  intros Haws Hdeclared Hrust.
  pose proof (selection_finds _ _ (scope_declared this w Hdeclared) Hrust) as Hsel.
  rewrite build_cases, Haws, Hsel. simpl.
  destruct (buildFailed (outcome this)); [reflexivity|].
  destruct (rewriting_loop_frame path_join globalThis this
              (scope this (service w)) (built this w))
    as (_ & Hsp & _).
  destruct (forEach _ _ tt _) as [[[]|e] w']; simpl in *; [|exact Hsp].
  destruct (Js.eq_str _ _); exact Hsp.
Qed.

(** X15. A subprocess that reports no spawn error and a null exit status
    (it was ended by a signal) or a status that is not above zero counts
    as a success: no diagnostic is logged and the step does not throw
    the build error, it goes on to the rewriting loop. *)
Theorem build_takes_null_status_for_success this w :
  spawned (snd (run this w)) <> spawned w ->
  reportsSuccess (outcome this) ->
  cli_log (snd (run this w)) = cli_log w ++ ["Running containerized build"] /\
  forall message, fst (run this w) <> Throw (Error message).
Proof.
  intros Hspawned Hok.
  destruct (spawned_then_built _ _ _ _ _ this w Hspawned) as [Haws [w0 Hsel]].
  apply buildFailed_false_iff in Hok.
  rewrite build_cases, Haws, Hsel, Hok. simpl.
  destruct (rewriting_loop_frame path_join globalThis this
              (scope this (service w)) (built this w))
    as (Hlog & _).
  destruct (forEach _ _ tt _) as [[[]|e] w'] eqn:Hloop; simpl in *.
  - destruct (Js.eq_str _ _); simpl; (split; [exact Hlog|discriminate]).
  - split; [exact Hlog|]. intros message Heq. injection Heq as ->.
    destruct (rewriting_loop_throws _ _ _ _ _ _ _ Hloop) as [[i H]|[m H]];
      discriminate H.
Qed.

End BuildFrame.

(** ** The rewriting loop, completed *)

Lemma rewrittenFunction_runtime path_join this p b f :
  func_runtime (rewrittenFunction path_join this p b f) <> Some RUST_RUNTIME.
Proof.
  unfold rewrittenFunction. simpl.
  destruct (Js.eq_str (func_runtime f) RUST_RUNTIME) eqn:E; [discriminate|].
  apply eq_str_false_iff, E.
Qed.

Lemma rewrittenFunction_idempotent path_join this p b f :
  rewrittenFunction path_join this p b (rewrittenFunction path_join this p b f)
  = rewrittenFunction path_join this p b f.
Proof.
  pose proof (rewrittenFunction_runtime path_join this p b f) as Hr.
  apply eq_str_false_iff in Hr.
  unfold rewrittenFunction at 1. rewrite Hr. reflexivity.
Qed.

Lemma rewriteNames_names path_join this p b names fs :
  map fst (rewriteNames path_join this p b names fs) = map fst fs.
Proof.
  revert fs. induction names as [|n names IH]; intros fs; [reflexivity|].
  simpl. destruct (lookupFunction fs n); [|reflexivity].
  rewrite IH. apply storeFunction_names.
Qed.

Lemma declared_after_store fs m g names :
  Forall (fun n => lookupFunction fs n <> None) names ->
  lookupFunction fs m <> None ->
  Forall (fun n => lookupFunction (storeFunction fs m g) n <> None) names.
Proof.
  intros Hall Hm. eapply List.Forall_impl; [|exact Hall].
  intros n Hn. rewrite lookup_storeFunction_cases.
  destruct (String.eqb m n); [|exact Hn].
  destruct (lookupFunction fs m); [discriminate|congruence].
Qed.

Lemma lookup_rewriteNames path_join this p b names :
  forall fs n f,
    Forall (fun k => lookupFunction fs k <> None) names ->
    lookupFunction fs n = Some f ->
    lookupFunction (rewriteNames path_join this p b names fs) n
    = Some (if existsb (String.eqb n) names
            then rewrittenFunction path_join this p b f else f).
Proof.
  induction names as [|m names IH]; intros fs n f Hall Hf; [exact Hf|].
  inversion Hall as [|? ? Hm Hrest]; subst.
  simpl. destruct (lookupFunction fs m) as [g|] eqn:Hg; [|congruence].
  rewrite (String.eqb_sym n m).
  destruct (String.eqb m n) eqn:Hmn.
  - apply String.eqb_eq in Hmn. subst m. rewrite Hf in Hg. injection Hg as <-.
    rewrite (IH _ n (rewrittenFunction path_join this p b f)).
    + rewrite rewrittenFunction_idempotent. simpl.
      destruct (existsb _ names); reflexivity.
    + apply declared_after_store; [exact Hrest|congruence].
    + rewrite lookup_storeFunction_cases, String.eqb_refl, Hf. reflexivity.
  - simpl. apply IH.
    + apply declared_after_store; [exact Hrest|congruence].
    + rewrite lookup_storeFunction_cases, Hmn. exact Hf.
Qed.

Lemma withFunctions_same (w : World) :
  withFunctions w (service_functions (service w)) = w.
Proof. destruct w as [[pr fs cr ex] lg sp]. reflexivity. Qed.

Lemma rewriting_loop_completes path_join globalThis this p b names :
  globalThis !! "profile" = Some p ->
  globalThis !! "binary" = Some b ->
  forall w,
    Forall (fun n => lookupFunction (service_functions (service w)) n <> None)
      names ->
    forEach names (rewriteFunction path_join globalThis this) tt w
    = (Normal tt,
       withFunctions w
         (rewriteNames path_join this p b names (service_functions (service w)))).
Proof.
  intros Hp Hb. induction names as [|m names IH]; intros w Hall.
  - simpl. rewrite withFunctions_same. reflexivity.
  - inversion Hall as [|? ? Hm Hrest]; subst.
    simpl. unfold bind. rewrite rewriteFunction_inspect, Hp, Hb.
    destruct (lookupFunction _ m) as [f|] eqn:Hf; [|congruence].
    rewrite IH; [reflexivity|].
    simpl. apply declared_after_store; [exact Hrest|congruence].
Qed.

Section BuildCompleted.

Variable path_join : list string -> string.
Variable homedir : string.
Variable process_env : gmap string string.
Variable spawnSync : string -> list string -> SpawnResult.
Variable globalThis : gmap string string.

Local Abbreviation run := (build path_join homedir process_env spawnSync globalThis).
Local Abbreviation outcome := (dockerOutcome path_join homedir process_env spawnSync).
Local Abbreviation built := (afterDockerBuild path_join homedir process_env).

(** X16. After a successful subprocess the step throws a ReferenceError
    as soon as the rewriting loop starts, unless the global object binds
    both [profile] and [binary] (the module declares neither): the error
    names [profile] when that one is missing and [binary] otherwise, and
    the service is left as it was. *)
Theorem successful_build_needs_global_profile_and_binary this w :
  spawned (snd (run this w)) <> spawned w ->
  reportsSuccess (outcome this) ->
  globalThis !! "profile" = None \/ globalThis !! "binary" = None ->
  run this w
  = (Throw (ReferenceError
              (match globalThis !! "profile" with
               | None => "profile"
               | Some _ => "binary"
               end)),
     built this w) /\
  service (snd (run this w)) = service w.
Proof.
  intros Hspawned Hok Hunbound.
  destruct (spawned_then_built _ _ _ _ _ this w Hspawned) as [Haws [w0 Hsel]].
  apply buildFailed_false_iff in Hok.
  rewrite build_cases, Haws, Hsel, Hok. simpl.
  destruct (selection_found_first _ _ _ Hsel) as [n [rest [f [-> Hf]]]].
  simpl. unfold bind. rewrite rewriteFunction_inspect. simpl.
  rewrite Hf.
  destruct (globalThis !! "profile") as [p|].
  - destruct Hunbound as [Hp|Hb]; [discriminate|]. rewrite Hb.
    split; reflexivity.
  - split; reflexivity.
Qed.

(** X17. Where the global object binds [profile] to [p] and [binary] to
    [b], a successful subprocess is followed by a complete rewrite: the
    step returns normally, every function in scope, ['rust'] or not, gets
    the one artifact path [join(srcPath, "target/lambda/<debug if p is
    "dev", else release>", b + ".zip")] and keeps the other properties of
    its package, a runtime of ['rust'] becomes ['provided.al2'] and any
    other runtime stays, and so does the provider's default runtime. *)
Theorem successful_build_rewrites_scope this w p b :
  spawned (snd (run this w)) <> spawned w ->
  reportsSuccess (outcome this) ->
  globalThis !! "profile" = Some p ->
  globalThis !! "binary" = Some b ->
  fst (run this w) = Normal tt /\
  (forall n f,
     In n (scope this (service w)) ->
     lookupFunction (service_functions (service w)) n = Some f ->
     lookupFunction (service_functions (service (snd (run this w)))) n
     = Some {| func_handler := func_handler f;
               func_runtime :=
                 if Js.eq_str (func_runtime f) RUST_RUNTIME
                 then Some BASE_RUNTIME else func_runtime f;
               func_package :=
                 Some {| artifact :=
                           Some (path_join
                                   [srcPath this;
                                    "target/lambda/" +:+
                                      (if String.eqb "dev" p
                                       then "debug" else "release");
                                    b +:+ ".zip"]);
                         package_rest :=
                           package_rest
                             (default emptyPackage (func_package f)) |} |}) /\
  provider_runtime (provider (service (snd (run this w))))
  = (if Js.eq_str (provider_runtime (provider (service w))) RUST_RUNTIME
     then Some BASE_RUNTIME
     else provider_runtime (provider (service w))).
Proof.
  intros Hspawned Hok Hp Hb.
  destruct (spawned_then_built _ _ _ _ _ this w Hspawned) as [Haws [w0 Hsel]].
  pose proof (selection_normal_declared _ _ _ _ _ Hsel) as Hdeclared.
  apply buildFailed_false_iff in Hok.
  rewrite build_cases, Haws, Hsel, Hok. simpl.
  rewrite (rewriting_loop_completes path_join globalThis this p b _ Hp Hb)
    by exact Hdeclared.
  simpl.
  assert (forall n f,
            In n (scope this (service w)) ->
            lookupFunction (service_functions (service w)) n = Some f ->
            lookupFunction
              (rewriteNames path_join this p b (scope this (service w))
                 (service_functions (service w))) n
            = Some (rewrittenFunction path_join this p b f)) as Hall.
  { intros n f Hn Hf.
    rewrite (lookup_rewriteNames _ _ _ _ _ _ n f Hdeclared Hf).
    replace (existsb (String.eqb n) (scope this (service w))) with true;
      [reflexivity|].
    symmetry. apply existsb_exists. exists n. split; [exact Hn|].
    apply String.eqb_refl. }
  destruct (Js.eq_str (provider_runtime (provider (service w))) RUST_RUNTIME);
    simpl; (split; [reflexivity|split; [exact Hall|reflexivity]]).
Qed.

(** X18. The entry point is not idempotent: once an invocation under
    provider ['aws'] has returned normally, the functions in scope and
    the provider no longer carry ['rust'], so the next invocation (a
    later hook of the same run) spawns nothing and throws the
    no-Rust-functions error. *)
Theorem build_after_completed_build_throws this w w' :
  provider_name (provider (service w)) = "aws" ->
  run this w = (Normal tt, w') ->
  run this w' = (Throw (Error noRustFunctionsMessage), w').
Proof.
  intros Haws Hrun. rewrite build_cases, Haws in Hrun. simpl in Hrun.
  destruct (forEach _ selectRust false w) as [[[|]|e] w0] eqn:Hsel;
    try discriminate Hrun.
  destruct (buildFailed (outcome this)); [discriminate Hrun|].
  pose proof (selection_normal_declared _ _ _ _ _ Hsel) as Hdeclared.
  destruct (selection_found_first _ _ _ Hsel) as [n0 [rest [f0 [Hscope Hf0]]]].
  destruct (globalThis !! "profile") as [p|] eqn:Hp;
    [destruct (globalThis !! "binary") as [b|] eqn:Hb|].
  2,3: rewrite Hscope in Hrun; simpl in Hrun; unfold bind in Hrun;
       rewrite rewriteFunction_inspect in Hrun; simpl in Hrun;
       rewrite Hf0, Hp, ?Hb in Hrun; discriminate Hrun.
  rewrite (rewriting_loop_completes path_join globalThis this p b _ Hp Hb)
    in Hrun by exact Hdeclared.
  simpl in Hrun.
  assert (forall prov', prov' <> Some RUST_RUNTIME ->
            Forall (fun n => exists f',
                      lookupFunction
                        (rewriteNames path_join this p b (scope this (service w))
                           (service_functions (service w))) n = Some f' /\
                      Js.or_opt (func_runtime f') prov' <> Some RUST_RUNTIME)
                   (scope this (service w))) as Hnone.
  { intros prov' Hprov. apply List.Forall_forall. intros n Hn.
    pose proof (proj1 (List.Forall_forall _ _) Hdeclared n Hn) as Hdn.
    destruct (lookupFunction (service_functions (service w)) n) as [f|] eqn:Hf;
      [|congruence].
    exists (rewrittenFunction path_join this p b f). split.
    - rewrite (lookup_rewriteNames _ _ _ _ _ _ n f Hdeclared Hf).
      replace (existsb (String.eqb n) (scope this (service w))) with true;
        [reflexivity|].
      symmetry. apply existsb_exists. exists n. split; [exact Hn|].
      apply String.eqb_refl.
    - unfold Js.or_opt. destruct (Js.truthy_opt _); [|exact Hprov].
      apply rewrittenFunction_runtime. }
  assert (forall s', service_functions s'
                     = rewriteNames path_join this p b (scope this (service w))
                         (service_functions (service w)) ->
                     scope this s' = scope this (service w)) as Hscope'.
  { intros s' Hs'. unfold scope, getAllFunctions.
    rewrite Hs', rewriteNames_names. reflexivity. }
  destruct (Js.eq_str (provider_runtime (provider (service w))) RUST_RUNTIME)
    eqn:Hprov.
  - unfold writeProviderRuntime, bind, getService, setService in Hrun.
    simpl in Hrun. injection Hrun as <-.
    rewrite build_cases. simpl. rewrite Haws. simpl.
    rewrite Hscope' by reflexivity.
    rewrite selection_finds_nothing; [reflexivity|].
    apply (Hnone (Some BASE_RUNTIME)). discriminate.
  - injection Hrun as <-.
    rewrite build_cases. simpl. rewrite Haws. simpl.
    rewrite Hscope' by reflexivity.
    rewrite selection_finds_nothing; [reflexivity|].
    apply (Hnone (provider_runtime (provider (service w)))).
    apply eq_str_false_iff, Hprov.
Qed.

End BuildCompleted.


(** ** Closed instances of the further properties *)

Lemma build_leaves_functions_out_of_scope_witness :
  lookupFunction
    (service_functions
       (service (snd (Sample.run (Sample.exits 0) Fixture.boundGlobals
                        (Fixture.only "hello") Fixture.mixed))))
    "web"
  = lookupFunction (service_functions (service Fixture.mixed)) "web".
Proof.
  apply (build_leaves_functions_out_of_scope Sample.join Sample.home ∅
           (Sample.exits 0) Fixture.boundGlobals (Fixture.only "hello")
           Fixture.mixed "web").
  simpl. intros [H|[]]. discriminate H.
Defined.


Lemma build_spawns_when_rust_function_in_scope_witness :
  spawned (snd (Sample.run (Sample.exits 0) ∅ Fixture.all
                  (Sample.worldOf
                     (Sample.serviceOf "aws" (Some "rust")
                        [("bare", {| func_handler := "bare";
                                     func_runtime := None;
                                     func_package := None |})]))))
  = [] ++ [dockerCommand Sample.join Sample.home ∅ Fixture.all
             (cargoPackage (custom Fixture.all)) (profile (custom Fixture.all))].
Proof.
  apply (build_spawns_when_rust_function_in_scope Sample.join Sample.home ∅
           (Sample.exits 0) ∅ Fixture.all
           (Sample.worldOf
              (Sample.serviceOf "aws" (Some "rust")
                 [("bare", {| func_handler := "bare"; func_runtime := None;
                              func_package := None |})]))).
  - reflexivity.
  - simpl. discriminate.
  - exists "bare", {| func_handler := "bare"; func_runtime := None;
                      func_package := None |}.
    split; [left; reflexivity|]. split; reflexivity.
Defined.

Lemma build_takes_null_status_for_success_witness :
  cli_log (snd (Sample.run Fixture.signalled Fixture.boundGlobals Fixture.all
                  Fixture.mixed))
  = [] ++ ["Running containerized build"] /\
  forall message,
    fst (Sample.run Fixture.signalled Fixture.boundGlobals Fixture.all
           Fixture.mixed)
    <> Throw (Error message).
Proof.
  apply (build_takes_null_status_for_success Sample.join Sample.home ∅
           Fixture.signalled Fixture.boundGlobals Fixture.all Fixture.mixed).
  - vm_compute. discriminate.
  - split; [reflexivity|]. left. reflexivity.
Defined.

Lemma successful_build_needs_global_profile_and_binary_witness :
  Sample.run (Sample.exits 0) Fixture.profileOnly Fixture.all Fixture.mixed
  = (Throw (ReferenceError
              (match Fixture.profileOnly !! "profile" with
               | None => "profile"
               | Some _ => "binary"
               end)),
     afterDockerBuild Sample.join Sample.home ∅ Fixture.all Fixture.mixed) /\
  service (snd (Sample.run (Sample.exits 0) Fixture.profileOnly Fixture.all
                  Fixture.mixed))
  = service Fixture.mixed.
Proof.
  apply (successful_build_needs_global_profile_and_binary Sample.join
           Sample.home ∅ (Sample.exits 0) Fixture.profileOnly Fixture.all
           Fixture.mixed).
  - vm_compute. discriminate.
  - split; [reflexivity|]. right. exists 0. split; [reflexivity|lia].
  - right. vm_compute. reflexivity.
Defined.

Lemma successful_build_rewrites_scope_witness :
  fst (Sample.run (Sample.exits 0) Fixture.boundGlobals Fixture.all
         Fixture.mixed) = Normal tt /\
  (forall n f,
     In n (scope Fixture.all (service Fixture.mixed)) ->
     lookupFunction (service_functions (service Fixture.mixed)) n = Some f ->
     lookupFunction
       (service_functions
          (service (snd (Sample.run (Sample.exits 0) Fixture.boundGlobals
                           Fixture.all Fixture.mixed)))) n
     = Some {| func_handler := func_handler f;
               func_runtime :=
                 if Js.eq_str (func_runtime f) RUST_RUNTIME
                 then Some BASE_RUNTIME else func_runtime f;
               func_package :=
                 Some {| artifact :=
                           Some (Sample.join
                                   [srcPath Fixture.all;
                                    "target/lambda/" +:+
                                      (if String.eqb "dev" "dev"
                                       then "debug" else "release");
                                    "hello" +:+ ".zip"]);
                         package_rest :=
                           package_rest
                             (default emptyPackage (func_package f)) |} |}) /\
  provider_runtime
    (provider (service (snd (Sample.run (Sample.exits 0) Fixture.boundGlobals
                               Fixture.all Fixture.mixed))))
  = (if Js.eq_str (provider_runtime (provider (service Fixture.mixed)))
          RUST_RUNTIME
     then Some BASE_RUNTIME
     else provider_runtime (provider (service Fixture.mixed))).
Proof.
  apply (successful_build_rewrites_scope Sample.join Sample.home ∅
           (Sample.exits 0) Fixture.boundGlobals Fixture.all Fixture.mixed
           "dev" "hello").
  - vm_compute. discriminate.
  - split; [reflexivity|]. right. exists 0. split; [reflexivity|lia].
  - vm_compute. reflexivity.
  - vm_compute. reflexivity.
Defined.

Lemma build_after_completed_build_throws_witness :
  Sample.run (Sample.exits 0) Fixture.boundGlobals Fixture.all
    (snd (Sample.run (Sample.exits 0) Fixture.boundGlobals Fixture.all
            Fixture.mixed))
  = (Throw (Error noRustFunctionsMessage),
     snd (Sample.run (Sample.exits 0) Fixture.boundGlobals Fixture.all
            Fixture.mixed)).
Proof.
  apply (build_after_completed_build_throws Sample.join Sample.home ∅
           (Sample.exits 0) Fixture.boundGlobals Fixture.all Fixture.mixed).
  - reflexivity.
  - vm_compute. reflexivity.
Defined.
